(** * The ABCI application of ethermint: [app/app.go]

    A shallow embedding of [EthermintApplication] and of its ABCI methods
    [Info], [CheckTx], [DeliverTx], [BeginBlock], [Commit] and of the
    admission routine [validateTx].

    Go pointers to [state.StateDB] objects are modelled by locations in an
    explicit heap, so that [state.Copy()] and the in-place updates of
    [validateTx] keep their aliasing behaviour.  A Go [panic] is an outcome
    of its own.  Logging calls are not modelled. *)

From Stdlib Require Import ZArith String List Lia DecimalString.
From stdpp Require Import base option gmap strings list.

Local Open Scope Z_scope.

(** ** Machine integers *)

(** Conversion of an integer to Go's [uint64], [uint32] and [int64]. *)
Definition uint64 (z : Z) : Z := z mod 2 ^ 64.
Definition uint32 (z : Z) : Z := z mod 2 ^ 32.
Definition MaxInt64 : Z := 2 ^ 63 - 1.
Definition MaxUint64 : Z := 2 ^ 64 - 1.

(** [Int64()] of a [big.Int]: the low 64 bits, read as a signed number. *)
Definition Int64 (z : Z) : Z := (z + 2 ^ 63) mod 2 ^ 64 - 2 ^ 63.

(** The [%d] and [%s] verbs of [fmt.Sprintf] on integers: decimal digits,
    with a leading minus sign for a negative number. *)
Definition FormatInt (z : Z) : string := NilZero.string_of_int (Z.to_int z).

(** ** go-ethereum: [common], [core/types], [core/state], [core], [params] *)

(** [common.Address] is 20 bytes, kept here as the number they spell;
    [common.Hash] is 32 bytes. *)
Abbreviation Address := N (only parsing).
Abbreviation Hash := (list Byte.byte) (only parsing).

(** [types.Transaction]: the fields of [txdata] and the cached size. *)
Record Transaction : Type := mkTransaction {
  AccountNonce : Z;            (* uint64 *)
  Price : Z;                   (* big.Int *)
  GasLimit : Z;                (* uint64 *)
  Recipient : option Address;  (* nil means contract creation *)
  Amount : Z;                  (* big.Int *)
  Payload : list Byte.byte;
  SigV : Z;
  SigR : Z;
  SigS : Z;
  size : Z                     (* common.StorageSize *)
}.

Definition Nonce (tx : Transaction) : Z := AccountNonce tx.
Definition Gas (tx : Transaction) : Z := GasLimit tx.
Definition GasPrice (tx : Transaction) : Z := Price tx.
Definition Value (tx : Transaction) : Z := Amount tx.
Definition To (tx : Transaction) : option Address := Recipient tx.
Definition Data (tx : Transaction) : list Byte.byte := Payload tx.
Definition Size (tx : Transaction) : Z := size tx.

(** [tx.Cost()]: [gasprice * gaslimit + amount]. *)
Definition Cost (tx : Transaction) : Z := Price tx * GasLimit tx + Amount tx.

(** [types.Signer]: the two signers [validateTx] chooses between. *)
Inductive Signer : Type :=
| FrontierSigner
| EIP155Signer (chainId : Z).

Definition NewEIP155Signer (chainId : Z) : Signer := EIP155Signer chainId.

(** The error values of [core] that [validateTx] reports. *)
Definition ErrOversizedData : string := "oversized data".
Definition ErrInvalidSender : string := "invalid sender".
Definition ErrNegativeValue : string := "negative value".
Definition ErrGasLimitReached : string := "gas limit reached".
Definition ErrIntrinsicGas : string := "intrinsic gas too low".

(** Gas prices of [params]. *)
Definition TxGas : Z := 21000.
Definition TxGasContractCreation : Z := 53000.
Definition TxDataZeroGas : Z := 4.
Definition TxDataNonZeroGas : Z := 68.

Definition count_nonzero (data : list Byte.byte) : Z :=
  Z.of_nat (List.length (List.filter (fun b => negb (Byte.eqb b Byte.x00)) data)).

(** [core.IntrinsicGas(data, contractCreation, homestead)]: the gas a
    transaction pays before execution, or an error when the sum leaves
    [uint64]. *)
Definition IntrinsicGas (data : list Byte.byte) (contractCreation homestead : bool)
  : Z + string :=
  let gas := if contractCreation && homestead then TxGasContractCreation else TxGas in
  if 0 <? Z.of_nat (List.length data) then
    let nz := count_nonzero data in
    if (MaxUint64 - gas) / TxDataNonZeroGas <? nz then inr "out of gas"%string
    else
      let gas := gas + nz * TxDataNonZeroGas in
      let z := Z.of_nat (List.length data) - nz in
      if (MaxUint64 - gas) / TxDataZeroGas <? z then inr "out of gas"%string
      else inl (gas + z * TxDataZeroGas)
  else inl gas.

(** An account of the state: [Nonce] and [Balance] of [state.Account]. *)
Record stateObject : Type := mkStateObject {
  so_nonce : Z;     (* uint64 *)
  so_balance : Z    (* big.Int *)
}.

Definition newObject : stateObject := {| so_nonce := 0; so_balance := 0 |}.

(** The contents of a [state.StateDB]: its live state objects by address. *)
Module StateDB.

Abbreviation t := (gmap N stateObject) (only parsing).

Definition Exist (addr : Address) (s : t) : bool :=
  bool_decide (is_Some (s !! addr)).

Definition GetNonce (addr : Address) (s : t) : Z :=
  match s !! addr with Some so => so_nonce so | None => 0 end.

Definition GetBalance (addr : Address) (s : t) : Z :=
  match s !! addr with Some so => so_balance so | None => 0 end.

(** [GetOrNewStateObject]: the object at [addr], created empty if absent. *)
Definition GetOrNewStateObject (addr : Address) (s : t) : stateObject :=
  match s !! addr with Some so => so | None => newObject end.

Definition SubBalance (addr : Address) (amount : Z) (s : t) : t :=
  let so := GetOrNewStateObject addr s in
  if amount =? 0 then <[addr := so]> s
  else <[addr := {| so_nonce := so_nonce so; so_balance := so_balance so - amount |}]> s.

Definition AddBalance (addr : Address) (amount : Z) (s : t) : t :=
  let so := GetOrNewStateObject addr s in
  if amount =? 0 then <[addr := so]> s
  else <[addr := {| so_nonce := so_nonce so; so_balance := so_balance so + amount |}]> s.

Definition SetNonce (addr : Address) (nonce : Z) (s : t) : t :=
  let so := GetOrNewStateObject addr s in
  <[addr := {| so_nonce := nonce; so_balance := so_balance so |}]> s.

End StateDB.

(** [types.Block]: what [Info] and [Commit] read of the head block. *)
Record Block : Type := mkBlock {
  Number : Z;      (* big.Int *)
  BlockHash : Hash;
  Root : Hash
}.

(** ** cosmos-sdk and tendermint: response codes and ABCI messages *)

(** [cosmosErrors.CodeType]: the codes [app.go] uses, with their numbers. *)
Definition CodeOK : Z := 0.
Definition CodeInternal : Z := 1.
Definition CodeUnknownRequest : Z := 6.
Definition CodeUnknownAddress : Z := 9.
Definition CodeOutOfGas : Z := 12.

(** [abciTypes.CodeTypeOK]. *)
Definition CodeTypeOK : Z := 0.

Module ResponseInfo.
Record t : Type := mk {
  Data : string;
  LastBlockHeight : Z;            (* int64 *)
  LastBlockAppHash : list Byte.byte
}.
End ResponseInfo.

Module ResponseCheckTx.
Record t : Type := mk {
  Code : Z;                       (* uint32 *)
  Log : string
}.
End ResponseCheckTx.

Module ResponseDeliverTx.
Record t : Type := mk {
  Code : Z;                       (* uint32 *)
  Data : list Byte.byte;
  Log : string
}.
(** [IsErr]: the response code is not [CodeTypeOK]. *)
Definition IsErr (r : t) : bool := negb (Code r =? CodeTypeOK).
End ResponseDeliverTx.

Module ResponseCommit.
Record t : Type := mk {
  Data : list Byte.byte
}.
End ResponseCommit.

(** [abciTypes.RequestBeginBlock]: the block hash and the header fields the
    application touches. *)
Record Header : Type := mkHeader {
  Height : Z;
  Time : Z;
  ProposerAddress : list Byte.byte
}.

Record RequestBeginBlock : Type := mkRequestBeginBlock {
  RequestHash : list Byte.byte;
  RequestHeader : Header
}.

(** ** Outcomes of a Go call *)

(** A call returns a value or panics with a message. *)
Inductive result (A : Type) : Type :=
| Ret (a : A)
| Panic (msg : string).
Arguments Ret {A} a.
Arguments Panic {A} msg.

(** ** Collaborators of the application that live in other packages *)

(** Transaction decoding and signature recovery: [decodeTx] of the [app]
    package (RLP decoding, in a file of its own) and, from go-ethereum's
    [types], [tx.Protected()], [tx.ChainId()] and [types.Sender]. *)
Class TxCodec : Type := {
  decodeTx : list Byte.byte -> Transaction + string;
  Protected : Transaction -> bool;
  ChainId : Transaction -> Z;
  Sender : Signer -> Transaction -> Address + string
}.

(** The methods of [ethereum.Backend] that the application calls, over the
    state [B] of the backend.  A pointer to a [state.StateDB] is a location
    of the heap. *)
Class BackendOps (B : Type) : Type := {
  CurrentBlock : B -> Block;
  BackendGasLimit : B -> Z;
  BackendDeliverTx : Transaction -> B -> ResponseDeliverTx.t * B;
  BackendCommit : Address -> B -> (Hash * option string) * B;
  InitEthState : Address -> B -> option string * B;
  UpdateHeaderWithTimeInfo : Header -> B -> B
}.

(** ** The application *)

(** The constants of [app.go]. *)
Definition bigZero : Z := 0.
Definition maxTransactionSize : Z := 32768.

Section Application.

Context {B S : Type} `{!TxCodec} `{!BackendOps B}.

(** The fields of [EthermintApplication] that the ABCI methods read and
    write.  [strategy] stands for the reward strategy and the validator
    bookkeeping; [getCurrentState] is the closure over the block chain
    of the backend: it hands out a pointer to a state and may allocate. *)
Record EthermintApplication : Type := mkApp {
  backend : B;
  getCurrentState :
    B -> gmap positive (gmap N stateObject) ->
    gmap positive (gmap N stateObject) * (positive + string);
  checkTxState : positive;
  strategy : S;
  requestBeginBlock : option RequestBeginBlock
}.

(** [app.Receiver()] and [app.CollectTx(tx)], methods of the application
    defined next to the validator code. *)
Variable Receiver : EthermintApplication -> Address.
Variable CollectTx : Transaction -> EthermintApplication -> EthermintApplication.

(** The Go heap of [state.StateDB] objects together with the application. *)
Record World : Type := mkWorld {
  heap : gmap positive (gmap N stateObject);
  app : EthermintApplication
}.

(** A method of the application: it runs in a world and returns a value
    and the world it leaves, or panics. *)
Definition Go (A : Type) : Type := World -> result (A * World).

#[global] Instance Go_ret : MRet Go := fun A a w => Ret (a, w).
#[global] Instance Go_bind : MBind Go := fun A A' f m w =>
  match m w with
  | Ret (a, w') => f a w'
  | Panic msg => Panic msg
  end.

Definition panic {A : Type} (msg : string) : Go A := fun _ => Panic msg.

Definition getApp : Go EthermintApplication := fun w => Ret (app w, w).

Definition modifyApp (f : EthermintApplication -> EthermintApplication) : Go unit :=
  fun w => Ret (tt, {| heap := heap w; app := f (app w) |}).

Definition set_backend (b : B) (a : EthermintApplication) : EthermintApplication :=
  {| backend := b; getCurrentState := getCurrentState a;
     checkTxState := checkTxState a; strategy := strategy a;
     requestBeginBlock := requestBeginBlock a |}.

Definition set_checkTxState (p : positive) (a : EthermintApplication)
  : EthermintApplication :=
  {| backend := backend a; getCurrentState := getCurrentState a;
     checkTxState := p; strategy := strategy a;
     requestBeginBlock := requestBeginBlock a |}.

Definition set_requestBeginBlock (r : option RequestBeginBlock)
  (a : EthermintApplication) : EthermintApplication :=
  {| backend := backend a; getCurrentState := getCurrentState a;
     checkTxState := checkTxState a; strategy := strategy a;
     requestBeginBlock := r |}.

(** A call of a backend method: it may change the state of the backend. *)
Definition callBackend {A : Type} (f : B -> A * B) : Go A := fun w =>
  let '(x, b) := f (backend (app w)) in
  Ret (x, {| heap := heap w; app := set_backend b (app w) |}).

(** [app.getCurrentState()]. *)
Definition callGetCurrentState : Go (positive + string) := fun w =>
  let '(h, r) := getCurrentState (app w) (backend (app w)) (heap w) in
  Ret (r, {| heap := h; app := app w |}).

(** *** Methods of [*state.StateDB] through a pointer *)

Definition nilDereference : string :=
  "runtime error: invalid memory address or nil pointer dereference".

Definition load (p : positive) : Go (gmap N stateObject) := fun w =>
  match heap w !! p with
  | Some s => Ret (s, w)
  | None => Panic nilDereference
  end.

Definition store (p : positive) (s : gmap N stateObject) : Go unit := fun w =>
  Ret (tt, {| heap := <[p := s]> (heap w); app := app w |}).

Definition new (s : gmap N stateObject) : Go positive := fun w =>
  let q := fresh (dom (heap w)) in
  Ret (q, {| heap := <[q := s]> (heap w); app := app w |}).

Definition Exist (p : positive) (addr : Address) : Go bool :=
  s ← load p; mret (StateDB.Exist addr s).

Definition GetNonce (p : positive) (addr : Address) : Go Z :=
  s ← load p; mret (StateDB.GetNonce addr s).

Definition GetBalance (p : positive) (addr : Address) : Go Z :=
  s ← load p; mret (StateDB.GetBalance addr s).

Definition SubBalance (p : positive) (addr : Address) (amount : Z) : Go unit :=
  s ← load p; store p (StateDB.SubBalance addr amount s).

Definition AddBalance (p : positive) (addr : Address) (amount : Z) : Go unit :=
  s ← load p; store p (StateDB.AddBalance addr amount s).

Definition SetNonce (p : positive) (addr : Address) (nonce : Z) : Go unit :=
  s ← load p; store p (StateDB.SetNonce addr nonce s).

(** [state.Copy()]: a new object with the same contents. *)
Definition Copy (p : positive) : Go positive :=
  s ← load p; new s.

(** *** [Info] *)

Definition Info : Go ResponseInfo.t :=
  a ← getApp;
  let currentBlock := CurrentBlock (backend a) in
  let height := Number currentBlock in
  let hash := BlockHash currentBlock in
  if height =? bigZero then
    mret {| ResponseInfo.Data := "ABCIEthereum";
            ResponseInfo.LastBlockHeight := Int64 height;
            ResponseInfo.LastBlockAppHash := [] |}
  else
    mret {| ResponseInfo.Data := "ABCIEthereum";
            ResponseInfo.LastBlockHeight := Int64 height;
            ResponseInfo.LastBlockAppHash := hash |}.

(** *** [validateTx] and [CheckTx] *)

Definition validateTx (tx : Transaction) : Go ResponseCheckTx.t :=
  if maxTransactionSize <? Size tx then
    mret {| ResponseCheckTx.Code := uint32 CodeInternal;
            ResponseCheckTx.Log := ErrOversizedData |}
  else
  let signer :=
    if Protected tx then NewEIP155Signer (ChainId tx) else FrontierSigner in
  match Sender signer tx with
  | inr _ =>
    mret {| ResponseCheckTx.Code := uint32 CodeInternal;
            ResponseCheckTx.Log := ErrInvalidSender |}
  | inl from =>
  if Value tx <? 0 then
    mret {| ResponseCheckTx.Code := uint32 CodeUnknownRequest;
            ResponseCheckTx.Log := ErrNegativeValue |}
  else
  a ← getApp;
  let currentState := checkTxState a in
  exist ← Exist currentState from;
  if negb exist then
    mret {| ResponseCheckTx.Code := uint32 CodeUnknownAddress;
            ResponseCheckTx.Log := ErrInvalidSender |}
  else
  let gasLimit := BackendGasLimit (backend a) in
  if gasLimit <? Gas tx then
    mret {| ResponseCheckTx.Code := uint32 CodeOutOfGas;
            ResponseCheckTx.Log := ErrGasLimitReached |}
  else
  nonce ← GetNonce currentState from;
  if negb (nonce =? Nonce tx) then
    mret {| ResponseCheckTx.Code := uint32 CodeInternal;
            ResponseCheckTx.Log :=
              String.append "Nonce not strictly increasing. Expected "
                (String.append (FormatInt nonce)
                   (String.append " Got " (FormatInt (Nonce tx)))) |}
  else
  currentBalance ← GetBalance currentState from;
  if currentBalance <? Cost tx then
    mret {| ResponseCheckTx.Code := uint32 CodeUnknownRequest;
            ResponseCheckTx.Log :=
              String.append "Current balance: "
                (String.append (FormatInt currentBalance)
                   (String.append ", tx cost: " (FormatInt (Cost tx)))) |}
  else
  match IntrinsicGas (Data tx) (bool_decide (To tx = None)) true with
  | inr _ => panic "Intrinsic gas failed!"
  | inl intrGas =>
  if Gas tx <? intrGas then
    mret {| ResponseCheckTx.Code := uint32 CodeUnknownRequest;
            ResponseCheckTx.Log := ErrIntrinsicGas |}
  else
  SubBalance currentState from (Cost tx);;
  match To tx with
  | Some to => AddBalance currentState to (Value tx)
  | None => mret tt
  end;;
  SetNonce currentState from (uint64 (Nonce tx + 1));;
  mret {| ResponseCheckTx.Code := CodeTypeOK; ResponseCheckTx.Log := "" |}
  end
  end.

Definition CheckTx (txBytes : list Byte.byte) : Go ResponseCheckTx.t :=
  match decodeTx txBytes with
  | inr err =>
    mret {| ResponseCheckTx.Code := uint32 CodeInternal;
            ResponseCheckTx.Log := err |}
  | inl tx => validateTx tx
  end.

(** *** [DeliverTx], [BeginBlock] and [Commit] *)

Definition DeliverTx (txBytes : list Byte.byte) : Go ResponseDeliverTx.t :=
  match decodeTx txBytes with
  | inr err =>
    mret {| ResponseDeliverTx.Code := uint32 CodeInternal;
            ResponseDeliverTx.Data := [];
            ResponseDeliverTx.Log := err |}
  | inl tx =>
    res ← callBackend (BackendDeliverTx tx);
    if ResponseDeliverTx.IsErr res then mret res
    else
      modifyApp (CollectTx tx);;
      mret {| ResponseDeliverTx.Code := CodeTypeOK;
              ResponseDeliverTx.Data := [];
              ResponseDeliverTx.Log := "" |}
  end.

Definition BeginBlock (beginBlock : RequestBeginBlock) : Go unit :=
  modifyApp (set_requestBeginBlock (Some beginBlock));;
  a ← getApp;
  err ← callBackend (InitEthState (Receiver a));
  match err with
  | Some e => panic e
  | None =>
    callBackend (fun b => (tt, UpdateHeaderWithTimeInfo (RequestHeader beginBlock) b))
  end.

Definition Commit : Go ResponseCommit.t :=
  a ← getApp;
  r ← callBackend (BackendCommit (Receiver a));
  let '(blockHash, err) := r in
  (* the root of the head block is read here, for the log only *)
  match err with
  | Some _ => panic "Error getting latest ethereum state"
  | None =>
    st ← callGetCurrentState;
    match st with
    | inr _ => panic "Error getting latest state"
    | inl state =>
      c ← Copy state;
      modifyApp (set_checkTxState c);;
      modifyApp (set_requestBeginBlock None);;
      mret {| ResponseCommit.Data := blockHash |}
    end
  end.

End Application.

(** ** The admission contract, in the words of the specification *)

(** The kinds of rejection of the error taxonomy, with what they report. *)
Inductive Rejection : Type :=
| MalformedTx (err : string)
| OversizedTx
| InvalidSignature
| NegativeValue
| UnknownSender
| GasLimitExceeded
| BadNonce (expected got : Z)
| InsufficientFunds (balance cost : Z)
| IntrinsicGasTooLow.

(** The abstract response codes of the protocol. *)
Inductive ResponseCode : Type :=
| OK
| Internal
| UnknownRequest
| UnknownAddress
| OutOfGas.

(** The numeric code on the wire. *)
Definition numeric (c : ResponseCode) : Z :=
  match c with
  | OK => CodeTypeOK
  | Internal => uint32 CodeInternal
  | UnknownRequest => uint32 CodeUnknownRequest
  | UnknownAddress => uint32 CodeUnknownAddress
  | OutOfGas => uint32 CodeOutOfGas
  end.

(** The error taxonomy: the response code each kind surfaces as. *)
Definition surface (r : Rejection) : ResponseCode :=
  match r with
  | MalformedTx _ => Internal
  | OversizedTx => Internal
  | InvalidSignature => Internal
  | NegativeValue => UnknownRequest
  | UnknownSender => UnknownAddress
  | GasLimitExceeded => OutOfGas
  | BadNonce _ _ => Internal
  | InsufficientFunds _ _ => UnknownRequest
  | IntrinsicGasTooLow => UnknownRequest
  end.

(** The log that goes with a rejection. *)
Definition logOf (r : Rejection) : string :=
  match r with
  | MalformedTx err => err
  | OversizedTx => ErrOversizedData
  | InvalidSignature => ErrInvalidSender
  | NegativeValue => ErrNegativeValue
  | UnknownSender => ErrInvalidSender
  | GasLimitExceeded => ErrGasLimitReached
  | BadNonce expected got =>
    String.append "Nonce not strictly increasing. Expected "
      (String.append (FormatInt expected) (String.append " Got " (FormatInt got)))
  | InsufficientFunds balance cost =>
    String.append "Current balance: "
      (String.append (FormatInt balance) (String.append ", tx cost: " (FormatInt cost)))
  | IntrinsicGasTooLow => ErrIntrinsicGas
  end.

Definition reply (r : Rejection) : ResponseCheckTx.t :=
  {| ResponseCheckTx.Code := numeric (surface r); ResponseCheckTx.Log := logOf r |}.

Definition okResponse : ResponseCheckTx.t :=
  {| ResponseCheckTx.Code := numeric OK; ResponseCheckTx.Log := "" |}.

(** What admission decides: the transaction enters the mempool state, it is
    rejected, or the process aborts. *)
Inductive Verdict : Type :=
| Accepted (tx : Transaction) (sender : Address)
| Rejected (r : Rejection)
| Aborted.

(** The first check of a list that fails, each check paired with the
    rejection it raises. *)
Fixpoint first_failure (checks : list (bool * Rejection)) : option Rejection :=
  match checks with
  | [] => None
  | (fails, r) :: rest => if fails then Some r else first_failure rest
  end.

(** The effect of an admitted transaction on the mempool state: debit the
    sender by the cost, credit the recipient if there is one, then bump the
    nonce of the sender. *)
Definition applyAccepted (tx : Transaction) (sender : Address)
  (s : gmap N stateObject) : gmap N stateObject :=
  let s1 := StateDB.SubBalance sender (Cost tx) s in
  let s2 := match To tx with
            | Some to => StateDB.AddBalance to (Value tx) s1
            | None => s1
            end in
  StateDB.SetNonce sender (uint64 (Nonce tx + 1)) s2.

Section Admission.

Context `{!TxCodec}.

Definition signerOf (tx : Transaction) : Signer :=
  if Protected tx then NewEIP155Signer (ChainId tx) else FrontierSigner.

(** Checks 4 to 9 against the mempool state [s] and the block gas limit. *)
Definition statefulChecks (s : gmap N stateObject) (gasLimit : Z)
  (tx : Transaction) (sender : Address) : list (bool * Rejection) :=
  [ (Value tx <? 0, NegativeValue);
    (negb (StateDB.Exist sender s), UnknownSender);
    (gasLimit <? Gas tx, GasLimitExceeded);
    (negb (StateDB.GetNonce sender s =? Nonce tx),
     BadNonce (StateDB.GetNonce sender s) (Nonce tx));
    (StateDB.GetBalance sender s <? Cost tx,
     InsufficientFunds (StateDB.GetBalance sender s) (Cost tx));
    (match IntrinsicGas (Data tx) (bool_decide (To tx = None)) true with
     | inl intrGas => Gas tx <? intrGas
     | inr _ => false
     end, IntrinsicGasTooLow) ].

(** Sender recovery and checks 4 to 9; a failure of the intrinsic gas
    computation once checks 4 to 8 have passed aborts. *)
Definition checkSigned (s : gmap N stateObject) (gasLimit : Z) (tx : Transaction)
  : Verdict :=
  match Sender (signerOf tx) tx with
  | inr _ => Rejected InvalidSignature
  | inl sender =>
    match first_failure (statefulChecks s gasLimit tx sender) with
    | Some r => Rejected r
    | None =>
      match IntrinsicGas (Data tx) (bool_decide (To tx = None)) true with
      | inr _ => Aborted
      | inl _ => Accepted tx sender
      end
    end
  end.

(** The order of [app.go]: the size bound is on the decoded transaction. *)
Definition checkDecoded (s : gmap N stateObject) (gasLimit : Z) (tx : Transaction)
  : Verdict :=
  if maxTransactionSize <? Size tx then Rejected OversizedTx
  else checkSigned s gasLimit tx.

Definition admission (s : gmap N stateObject) (gasLimit : Z)
  (txBytes : list Byte.byte) : Verdict :=
  match decodeTx txBytes with
  | inr err => Rejected (MalformedTx err)
  | inl tx => checkDecoded s gasLimit tx
  end.

(** The order as the specification lists it: the size bound is on the
    bytes and comes before decoding. *)
Definition statedAdmission (s : gmap N stateObject) (gasLimit : Z)
  (txBytes : list Byte.byte) : Verdict :=
  if maxTransactionSize <? Z.of_nat (List.length txBytes) then Rejected OversizedTx
  else
    match decodeTx txBytes with
    | inr err => Rejected (MalformedTx err)
    | inl tx => checkSigned s gasLimit tx
    end.

End Admission.

Section Outcome.

Context {B S : Type}.

(** The mempool state of a world: the object [checkTxState] points to. *)
Definition Sm (w : @World B S) : option (gmap N stateObject) :=
  heap w !! checkTxState (app w).

(** What a verdict makes of a world. *)
Definition outcome (w : @World B S) (v : Verdict)
  : result (ResponseCheckTx.t * @World B S) :=
  match v with
  | Rejected r => Ret (reply r, w)
  | Aborted => Panic "Intrinsic gas failed!"
  | Accepted tx sender =>
    match Sm w with
    | Some s =>
      Ret (okResponse,
           {| heap := <[checkTxState (app w) := applyAccepted tx sender s]> (heap w);
              app := app w |})
    | None => Panic nilDereference
    end
  end.

(** All balances of a state are non-negative. *)
Definition balancesNonNegative (s : gmap N stateObject) : Prop :=
  forall addr so, s !! addr = Some so -> 0 <= so_balance so.

End Outcome.

(** [sub] occurs in [log]. *)
Definition contains (sub log : string) : Prop :=
  exists pre post, log = String.append pre (String.append sub post).

(** ** The rest of [app.go]: queries, construction, runs of requests *)

Module ResponseQuery.
Record t : Type := mk {
  Code : Z;                       (* uint32 *)
  Value : list Byte.byte;
  Log : string
}.
End ResponseQuery.

(** What [Query] calls: [json.Unmarshal] into a [jsonRequest] (a method
    name and its parameters), [rpcClient.Call], which reaches the node
    behind the backend and may change it, and [json.Marshal] of the
    result.  [J] is the type of JSON values. *)
Class QueryOps (B J : Type) : Type := {
  UnmarshalRequest : list Byte.byte -> (string * list J) + string;
  RpcCall : string -> list J -> B -> (J + string) * B;
  Marshal : J -> list Byte.byte + string
}.

Section Lifecycle.

Context {B S J : Type} `{!TxCodec} `{!BackendOps B} `{!QueryOps B J}.

Variable Receiver : @EthermintApplication B S -> Address.
Variable CollectTx :
  Transaction -> @EthermintApplication B S -> @EthermintApplication B S.

(** *** [Query] *)

Definition Query (data : list Byte.byte) : @Go B S ResponseQuery.t :=
  match UnmarshalRequest data with
  | inr err =>
    mret {| ResponseQuery.Code := uint32 CodeInternal;
            ResponseQuery.Value := [];
            ResponseQuery.Log := err |}
  | inl (method, params) =>
    r ← callBackend (RpcCall method params);
    match r with
    | inr err =>
      mret {| ResponseQuery.Code := uint32 CodeInternal;
              ResponseQuery.Value := [];
              ResponseQuery.Log := err |}
    | inl result =>
      match Marshal result with
      | inr err =>
        mret {| ResponseQuery.Code := uint32 CodeInternal;
                ResponseQuery.Value := [];
                ResponseQuery.Log := err |}
      | inl bytes =>
        mret {| ResponseQuery.Code := CodeTypeOK;
                ResponseQuery.Value := bytes;
                ResponseQuery.Log := "" |}
      end
    end
  end.

(** *** [NewEthermintApplication] *)

(** [validators.CreateValidators(backend, client)], of which the
    constructor keeps the manager and returns the error, and
    [ethdb.NewLDBDatabase] on the data directory, whose error ends the
    process through [ethUtils.Fatalf]. *)
Variable CreateValidators : B -> option string.
Variable NewLDBDatabase : option string.

(** The constructor runs on the heap alone: [state] is
    [backend.Ethereum().BlockChain().State], which also becomes the closure
    [getCurrentState].  It returns the application or an error. *)
Definition NewEthermintApplication (backend0 : B)
  (state :
     B -> gmap positive (gmap N stateObject) ->
     gmap positive (gmap N stateObject) * (positive + string))
  (strategy0 : S) (h : gmap positive (gmap N stateObject))
  : result ((@EthermintApplication B S + string) *
            gmap positive (gmap N stateObject)) :=
  let '(h1, st) := state backend0 h in
  match st with
  | inr err => Ret (inr err, h1)
  | inl p =>
    match CreateValidators backend0 with
    | Some err => Ret (inr err, h1)
    | None =>
      match NewLDBDatabase with
      | Some err => Panic (String.append "could not open app database: " err)
      | None =>
        match h1 !! p with
        | None => Panic nilDereference
        | Some s =>
          let c := fresh (dom h1) in
          let h2 := <[c := s]> h1 in
          let app0 :=
            {| backend := backend0; getCurrentState := state;
               checkTxState := c; strategy := strategy0;
               requestBeginBlock := None |} in
          let '(err, b) := InitEthState 0%N backend0 in
          match err with
          | Some e => Ret (inr e, h2)
          | None => Ret (inl (set_backend b app0), h2)
          end
        end
      end
    end
  end.

(** *** Runs of requests *)

(** The requests of the consensus engine that the application serves. *)
Inductive Call : Type :=
| CallInfo
| CallCheckTx (txBytes : list Byte.byte)
| CallDeliverTx (txBytes : list Byte.byte)
| CallBeginBlock (beginBlock : RequestBeginBlock)
| CallCommit
| CallQuery (data : list Byte.byte).

(** One request served; the response goes back to the engine. *)
Definition serve (c : Call) : @Go B S unit :=
  match c with
  | CallInfo => Info;; mret tt
  | CallCheckTx txBytes => CheckTx txBytes;; mret tt
  | CallDeliverTx txBytes => DeliverTx CollectTx txBytes;; mret tt
  | CallBeginBlock beginBlock => BeginBlock Receiver beginBlock
  | CallCommit => Commit Receiver;; mret tt
  | CallQuery data => Query data;; mret tt
  end.

(** Requests are served one after the other. *)
Fixpoint serveAll (cs : list Call) : @Go B S unit :=
  match cs with
  | [] => mret tt
  | c :: rest => serve c;; serveAll rest
  end.

(** [CheckTx] on a batch of transactions, as the mempool of the engine
    submits them between two commits; the responses are kept. *)
Fixpoint CheckTxs (txs : list (list Byte.byte)) : @Go B S (list ResponseCheckTx.t) :=
  match txs with
  | [] => mret []
  | txBytes :: rest =>
    resp ← CheckTx txBytes;
    resps ← CheckTxs rest;
    mret (resp :: resps)
  end.

(** The sender [CheckTx] recovers from the bytes, if it gets that far. *)
Definition senderOf (txBytes : list Byte.byte) : option Address :=
  match decodeTx txBytes with
  | inl tx =>
    match Sender (signerOf tx) tx with
    | inl sender => Some sender
    | inr _ => None
    end
  | inr _ => None
  end.

(** How many transactions of a batch were answered OK and came from
    [addr]. *)
Fixpoint acceptedFrom (addr : Address) (txs : list (list Byte.byte))
  (resps : list ResponseCheckTx.t) : Z :=
  match txs, resps with
  | txBytes :: txs', resp :: resps' =>
    (if bool_decide (senderOf txBytes = Some addr) &&
        (ResponseCheckTx.Code resp =? CodeTypeOK)
     then 1 else 0) + acceptedFrom addr txs' resps'
  | _, _ => 0
  end.

End Lifecycle.

(** The sum of the balances of a state. *)
Definition totalBalance (s : gmap N stateObject) : Z :=
  map_fold (fun _ so total => so_balance so + total) 0 s.

(** ** A test double: two accounts, a two-byte wire format, a backend in memory *)

Module Fixture.

Definition alice : N := 10.
Definition bob : N := 11.

(** A transfer of 100 with gas 21000 at gas price 1, signed by [alice]. *)
Definition transfer (nonce : Z) (to : N) : Transaction :=
  {| AccountNonce := nonce; Price := 1; GasLimit := 21000;
     Recipient := Some to; Amount := 100; Payload := [];
     SigV := 27; SigR := Z.of_N alice; SigS := 1; size := 110 |}.

(** The wire format of the double: one byte for the nonce, one for the
    recipient.  Anything else is not a transaction. *)
Definition decode (txBytes : list Byte.byte) : Transaction + string :=
  match txBytes with
  | [n; to] => inl (transfer (Z.of_N (Byte.to_N n)) (Byte.to_N to))
  | _ => inr "rlp: expected input list for types.txdata"%string
  end.

(** The signature of the double names its signer in [SigR]. *)
Definition recover (_ : Signer) (tx : Transaction) : Address + string :=
  if SigR tx =? 0 then inr "invalid transaction v, r, s values"%string
  else inl (Z.to_N (SigR tx)).

#[local] Instance codec : TxCodec := {|
  decodeTx := decode;
  Protected := fun tx => negb ((SigV tx =? 27) || (SigV tx =? 28));
  ChainId := fun tx => (SigV tx - 35) / 2;
  Sender := recover
|}.

Record MemBackend : Type := mkMemBackend {
  head : Block;
  blockGasLimit : Z;
  committed : gmap N stateObject;
  commitError : option string
}.

Definition nextBlock (b : Block) : Block :=
  {| Number := Number b + 1; BlockHash := [Byte.xab; Byte.xcd]; Root := Root b |}.

#[local] Instance memOps : BackendOps MemBackend := {|
  CurrentBlock := head;
  BackendGasLimit := blockGasLimit;
  BackendDeliverTx := fun tx b =>
    (if blockGasLimit b <? Gas tx
     then {| ResponseDeliverTx.Code := uint32 CodeOutOfGas;
             ResponseDeliverTx.Data := [];
             ResponseDeliverTx.Log := ErrGasLimitReached |}
     else {| ResponseDeliverTx.Code := CodeTypeOK;
             ResponseDeliverTx.Data := [];
             ResponseDeliverTx.Log := "" |}, b);
  BackendCommit := fun _ b =>
    ((BlockHash (nextBlock (head b)), commitError b),
     {| head := nextBlock (head b); blockGasLimit := blockGasLimit b;
        committed := committed b; commitError := commitError b |});
  InitEthState := fun _ b => (None, b);
  UpdateHeaderWithTimeInfo := fun _ b => b
|}.

(** The state in which [alice] holds [balance] at nonce 5. *)
Definition funded (balance : Z) : gmap N stateObject :=
  {[ alice := {| so_nonce := 5; so_balance := balance |} ]}.

Definition mem (number balance : Z) (err : option string) : MemBackend :=
  {| head := {| Number := number; BlockHash := [Byte.x01]; Root := [] |};
     blockGasLimit := 8000000;
     committed := funded balance;
     commitError := err |}.

(** The double keeps the committed state at location 2 of the heap. *)
Definition currentState (b : MemBackend) (h : gmap positive (gmap N stateObject))
  : gmap positive (gmap N stateObject) * (positive + string) :=
  (<[2%positive := committed b]> h, inl 2%positive).

Definition noState (b : MemBackend) (h : gmap positive (gmap N stateObject))
  : gmap positive (gmap N stateObject) * (positive + string) :=
  (h, inr "missing trie node"%string).

Definition receiver (_ : @EthermintApplication MemBackend unit) : Address := 0%N.

Definition collect (_ : Transaction) (a : @EthermintApplication MemBackend unit)
  : @EthermintApplication MemBackend unit := a.

(** A world at block [number] whose mempool state, at location 1, is
    [funded balance]. *)
Definition world (number balance : Z) (err : option string)
  (gcs : MemBackend -> gmap positive (gmap N stateObject) ->
         gmap positive (gmap N stateObject) * (positive + string))
  (req : option RequestBeginBlock) : @World MemBackend unit :=
  {| heap := {[ 1%positive := funded balance ]};
     app := {| backend := mem number balance err; getCurrentState := gcs;
               checkTxState := 1%positive; strategy := tt;
               requestBeginBlock := req |} |}.

(** 32769 bytes that are not a transaction. *)
Definition junk : list Byte.byte := repeat Byte.x00 (Z.to_nat 32769).

(** The world of the scenarios: block 3, [alice] holds [balance] at
    nonce 5, no block is open. *)
Definition scene (balance : Z) : @World MemBackend unit :=
  world 3 balance None currentState None.

Definition openBlock : RequestBeginBlock :=
  {| RequestHash := [Byte.x2a];
     RequestHeader := {| Height := 4; Time := 1500000000;
                         ProposerAddress := [Byte.x0b] |} |}.

End Fixture.

(** [Query] and construction on the test double: a JSON value is a number
    and a request is one byte. *)
Module FixtureRpc.

Definition unmarshal (data : list Byte.byte) : (string * list Z) + string :=
  match data with
  | [Byte.x01] => inl ("eth_blockNumber"%string, [])
  | [Byte.x02] => inl ("eth_unknown"%string, [])
  | _ => inr "unexpected end of JSON input"%string
  end.

Definition call (method : string) (params : list Z) (b : Fixture.MemBackend)
  : (Z + string) * Fixture.MemBackend :=
  if String.eqb method "eth_blockNumber"
  then (inl (Number (Fixture.head b)), b)
  else (inr "the method does not exist/is not available"%string, b).

Definition marshal (z : Z) : list Byte.byte + string :=
  inl (list_byte_of_string (FormatInt z)).

#[local] Instance rpc : QueryOps Fixture.MemBackend Z := {|
  UnmarshalRequest := unmarshal;
  RpcCall := call;
  Marshal := marshal
|}.

Definition validatorsOk (_ : Fixture.MemBackend) : option string := None.

(** A block of requests: open the block, deliver and check a transfer,
    ask for the block number, commit, ask for the height. *)
Definition block : list Call :=
  [ CallBeginBlock Fixture.openBlock;
    CallDeliverTx [Byte.x05; Byte.x0b];
    CallCheckTx [Byte.x05; Byte.x0b];
    CallQuery [Byte.x01];
    CallCommit;
    CallInfo ].

(** A batch for the mempool: a transfer, the same transfer again, and the
    transfer with the next nonce. *)
Definition batch : list (list Byte.byte) :=
  [[Byte.x05; Byte.x0b]; [Byte.x05; Byte.x0b]; [Byte.x06; Byte.x0b]].

End FixtureRpc.

(** ** Properties *)

Section Properties.

Context {B S : Type} `{!TxCodec} `{!BackendOps B}.
Implicit Types (w : @World B S) (s : gmap N stateObject).

Lemma bind_run {A A' : Type} (m : Go A) (f : A -> Go A') w :
  (m ≫= f) w =
  match m w with Ret (a, w') => f a w' | Panic msg => Panic msg end.
Proof. reflexivity. Qed.

Lemma ret_run {A : Type} (a : A) w : (mret a : Go A) w = Ret (a, w).
Proof. reflexivity. Qed.

Lemma load_run w p s : heap w !! p = Some s -> load p w = Ret (s, w).
Proof. intros Hp. unfold load. by rewrite Hp. Qed.

Lemma Exist_run w p s addr :
  heap w !! p = Some s -> Exist p addr w = Ret (StateDB.Exist addr s, w).
Proof. intros Hp. unfold Exist. by rewrite bind_run, (load_run _ _ _ Hp). Qed.

Lemma GetNonce_run w p s addr :
  heap w !! p = Some s -> GetNonce p addr w = Ret (StateDB.GetNonce addr s, w).
Proof. intros Hp. unfold GetNonce. by rewrite bind_run, (load_run _ _ _ Hp). Qed.

Lemma GetBalance_run w p s addr :
  heap w !! p = Some s -> GetBalance p addr w = Ret (StateDB.GetBalance addr s, w).
Proof. intros Hp. unfold GetBalance. by rewrite bind_run, (load_run _ _ _ Hp). Qed.

Lemma SubBalance_run w p s addr amount :
  heap w !! p = Some s ->
  SubBalance p addr amount w =
  Ret (tt, {| heap := <[p := StateDB.SubBalance addr amount s]> (heap w); app := app w |}).
Proof. intros Hp. unfold SubBalance. by rewrite bind_run, (load_run _ _ _ Hp). Qed.

Lemma AddBalance_run w p s addr amount :
  heap w !! p = Some s ->
  AddBalance p addr amount w =
  Ret (tt, {| heap := <[p := StateDB.AddBalance addr amount s]> (heap w); app := app w |}).
Proof. intros Hp. unfold AddBalance. by rewrite bind_run, (load_run _ _ _ Hp). Qed.

Lemma SetNonce_run w p s addr nonce :
  heap w !! p = Some s ->
  SetNonce p addr nonce w =
  Ret (tt, {| heap := <[p := StateDB.SetNonce addr nonce s]> (heap w); app := app w |}).
Proof. intros Hp. unfold SetNonce. by rewrite bind_run, (load_run _ _ _ Hp). Qed.

Lemma validateTx_outcome tx w s :
  Sm w = Some s ->
  validateTx tx w = outcome w (checkDecoded s (BackendGasLimit (backend (app w))) tx).
Proof.
  intros Hs. unfold Sm in Hs.
  unfold validateTx, checkDecoded, checkSigned, signerOf, statefulChecks.
  destruct (maxTransactionSize <? Size tx); [reflexivity|].
  destruct (Sender _ tx) as [sender|e]; [|reflexivity].
  cbn [first_failure].
  destruct (Value tx <? 0); [reflexivity|].
  rewrite bind_run. cbn [getApp]. rewrite bind_run, (Exist_run _ _ _ _ Hs).
  destruct (StateDB.Exist sender s); cbn [negb]; [|reflexivity].
  destruct (BackendGasLimit _ <? Gas tx); [reflexivity|].
  rewrite bind_run, (GetNonce_run _ _ _ _ Hs).
  destruct (StateDB.GetNonce sender s =? Nonce tx); cbn [negb]; [|reflexivity].
  rewrite bind_run, (GetBalance_run _ _ _ _ Hs).
  destruct (StateDB.GetBalance sender s <? Cost tx); [reflexivity|].
  destruct (IntrinsicGas _ _ _) as [g|e]; [|reflexivity].
  destruct (Gas tx <? g); [reflexivity|].
  unfold outcome, Sm. rewrite Hs.
  rewrite bind_run, (SubBalance_run _ _ _ _ _ Hs), bind_run.
  unfold applyAccepted.
  destruct (To tx) as [to|].
  - erewrite AddBalance_run by (cbn [heap app]; apply lookup_insert_eq).
    rewrite bind_run.
    erewrite SetNonce_run by (cbn [heap app]; apply lookup_insert_eq).
    rewrite ret_run. cbn [heap app]. by rewrite !insert_insert_eq.
  - rewrite ret_run, bind_run.
    erewrite SetNonce_run by (cbn [heap app]; apply lookup_insert_eq).
    rewrite ret_run. cbn [heap app]. by rewrite !insert_insert_eq.
Qed.

(** Runs [CheckTx] on a world whose mempool state is known: the goal
    [CheckTx bs w = outcome w (admission s g bs)] follows from the equation
    of [validateTx]. *)
Ltac run_CheckTx Hs :=
  unfold CheckTx, admission;
  destruct (decodeTx _); [by apply validateTx_outcome | reflexivity].

(** A verdict of admission pins down every check that was passed. *)
Lemma admission_Accepted s gasLimit bs tx sender :
  admission s gasLimit bs = Accepted tx sender ->
  decodeTx bs = inl tx /\ Size tx <= maxTransactionSize /\
  Sender (signerOf tx) tx = inl sender /\
  0 <= Value tx /\ is_Some (s !! sender) /\ Gas tx <= gasLimit /\
  StateDB.GetNonce sender s = Nonce tx /\
  Cost tx <= StateDB.GetBalance sender s /\
  exists intrGas,
    IntrinsicGas (Data tx) (bool_decide (To tx = None)) true = inl intrGas /\
    intrGas <= Gas tx.
Proof.
  unfold admission, checkDecoded, checkSigned, statefulChecks.
  destruct (decodeTx bs) as [tx0|e] eqn:Hdec; [|discriminate].
  destruct (maxTransactionSize <? Size tx0) eqn:Hsize; [discriminate|].
  destruct (Sender _ tx0) as [sender0|e] eqn:Hsender; [|discriminate].
  cbn [first_failure].
  destruct (Value tx0 <? 0) eqn:Hval; [discriminate|].
  destruct (StateDB.Exist sender0 s) eqn:Hex; cbn [negb]; [|discriminate].
  destruct (gasLimit <? Gas tx0) eqn:Hgas; [discriminate|].
  destruct (StateDB.GetNonce sender0 s =? Nonce tx0) eqn:Hnonce;
    cbn [negb]; [|discriminate].
  destruct (StateDB.GetBalance sender0 s <? Cost tx0) eqn:Hbal; [discriminate|].
  destruct (IntrinsicGas _ _ _) as [g|e] eqn:Hintr; [|discriminate].
  destruct (Gas tx0 <? g) eqn:Hig; [discriminate|].
  intros [= <- <-].
  unfold StateDB.Exist in Hex. apply bool_decide_eq_true in Hex.
  split; [done|]. split; [lia|]. split; [done|]. split; [lia|].
  split; [done|]. split; [lia|]. split; [lia|]. split; [lia|].
  exists g. split; [done | lia].
Qed.

Lemma admission_Rejected_MalformedTx s gasLimit bs err :
  admission s gasLimit bs = Rejected (MalformedTx err) -> decodeTx bs = inr err.
Proof.
  unfold admission, checkDecoded, checkSigned, statefulChecks.
  destruct (decodeTx bs) as [tx0|e]; [|by intros [= ->]].
  destruct (maxTransactionSize <? Size tx0); [discriminate|].
  destruct (Sender _ tx0) as [sender0|e]; [|discriminate].
  cbn [first_failure].
  repeat (match goal with
          | |- context [if ?b then _ else _] => destruct b
          end; try discriminate).
  all: try (destruct (IntrinsicGas _ _ _); discriminate).
Qed.

(** A call of [validateTx] that returns either rejected and left the world
    alone, or admitted and rewrote the mempool state. *)
Lemma validateTx_inv tx w resp w' :
  validateTx tx w = Ret (resp, w') ->
  (w' = w /\ exists r, resp = reply r) \/
  (exists s sender,
     Sm w = Some s /\
     checkDecoded s (BackendGasLimit (backend (app w))) tx = Accepted tx sender /\
     resp = okResponse /\
     w' = {| heap := <[checkTxState (app w) := applyAccepted tx sender s]> (heap w);
             app := app w |}).
Proof.
  destruct (Sm w) as [s|] eqn:Hs.
  - rewrite (validateTx_outcome _ _ _ Hs).
    destruct (checkDecoded _ _ _) as [tx0 sender|r|] eqn:Hv; cbn [outcome].
    + rewrite Hs. intros [= <- <-]. right. exists s, sender.
      assert (tx0 = tx) as ->; [|done].
      revert Hv. unfold checkDecoded, checkSigned.
      destruct (maxTransactionSize <? Size tx); [discriminate|].
      destruct (Sender _ tx); [|discriminate].
      destruct (first_failure _); [discriminate|].
      destruct (IntrinsicGas _ _ _); [|discriminate]. by intros [= -> _].
    + intros [= <- <-]. left. eauto.
    + discriminate.
  - unfold Sm in Hs. unfold validateTx.
    destruct (maxTransactionSize <? Size tx).
    { intros [= <- <-]. left. split; [done|]. by exists OversizedTx. }
    destruct (Sender _ tx) as [sender|e].
    2:{ intros [= <- <-]. left. split; [done|]. by exists InvalidSignature. }
    destruct (Value tx <? 0).
    { intros [= <- <-]. left. split; [done|]. by exists NegativeValue. }
    rewrite bind_run. cbn [getApp]. rewrite bind_run.
    unfold Exist. rewrite bind_run. unfold load. rewrite Hs. discriminate.
Qed.

Lemma reply_not_ok r : ResponseCheckTx.Code (reply r) <> CodeTypeOK.
Proof. by destruct r. Qed.

(** *** Reads of the mempool state after its updates *)

Lemma GetBalance_SubBalance a a' amount s :
  StateDB.GetBalance a' (StateDB.SubBalance a amount s) =
  if decide (a = a') then StateDB.GetBalance a' s - amount
  else StateDB.GetBalance a' s.
Proof.
  unfold StateDB.GetBalance, StateDB.SubBalance, StateDB.GetOrNewStateObject.
  destruct (amount =? 0) eqn:Hz; rewrite lookup_insert;
    destruct (decide (a = a')) as [->|]; try done;
    destruct (s !! a'); cbn; lia.
Qed.

Lemma GetBalance_AddBalance a a' amount s :
  StateDB.GetBalance a' (StateDB.AddBalance a amount s) =
  if decide (a = a') then StateDB.GetBalance a' s + amount
  else StateDB.GetBalance a' s.
Proof.
  unfold StateDB.GetBalance, StateDB.AddBalance, StateDB.GetOrNewStateObject.
  destruct (amount =? 0) eqn:Hz; rewrite lookup_insert;
    destruct (decide (a = a')) as [->|]; try done;
    destruct (s !! a'); cbn; lia.
Qed.

Lemma GetBalance_SetNonce a a' nonce s :
  StateDB.GetBalance a' (StateDB.SetNonce a nonce s) = StateDB.GetBalance a' s.
Proof.
  unfold StateDB.GetBalance, StateDB.SetNonce, StateDB.GetOrNewStateObject.
  rewrite lookup_insert. destruct (decide (a = a')) as [->|]; [|done].
  by destruct (s !! a').
Qed.

Lemma GetNonce_SetNonce a nonce s :
  StateDB.GetNonce a (StateDB.SetNonce a nonce s) = nonce.
Proof. unfold StateDB.GetNonce, StateDB.SetNonce. by rewrite lookup_insert_eq. Qed.

Lemma balancesNonNegative_insert a so s :
  balancesNonNegative s -> 0 <= so_balance so ->
  balancesNonNegative (<[a := so]> s).
Proof.
  intros Hs Hso a' so'. rewrite lookup_insert.
  destruct (decide (a = a')); [by intros [= <-] | apply Hs].
Qed.

Lemma balancesNonNegative_GetBalance a s :
  balancesNonNegative s -> 0 <= StateDB.GetBalance a s.
Proof.
  intros Hs. unfold StateDB.GetBalance.
  destruct (s !! a) as [so|] eqn:Ha; [by apply (Hs a) | lia].
Qed.

Lemma so_balance_GetBalance a s :
  so_balance (StateDB.GetOrNewStateObject a s) = StateDB.GetBalance a s.
Proof.
  unfold StateDB.GetOrNewStateObject, StateDB.GetBalance. by destruct (s !! a).
Qed.

(** *** The order of the admission checks *)

(** C1 (as amended): [CheckTx] first decodes the bytes (MalformedTx on
    failure), then rejects with OversizedTx when the size of the decoded
    transaction exceeds 32768, then recovers the sender with the signer
    chosen by replay protection (InvalidSignature), then runs, in this
    order and stopping at the first failure, NegativeValue, UnknownSender,
    GasLimitExceeded, BadNonce, InsufficientFunds and IntrinsicGasTooLow;
    a rejection leaves the world as it was, and a transaction that passes
    every check is applied to the mempool state. *)
Theorem CheckTx_check_order (txBytes : list Byte.byte) w s :
  Sm w = Some s ->
  CheckTx txBytes w =
  outcome w (admission s (BackendGasLimit (backend (app w))) txBytes).
Proof.
  intros Hs. unfold CheckTx, admission.
  destruct (decodeTx txBytes) as [tx|err]; [|reflexivity].
  by apply validateTx_outcome.
Qed.

(** A call of [CheckTx] that returns either rejected and left the world
    alone, or admitted and rewrote the mempool state. *)
Lemma CheckTx_inv (txBytes : list Byte.byte) w resp w' :
  CheckTx txBytes w = Ret (resp, w') ->
  (w' = w /\ exists r, resp = reply r) \/
  (exists s tx sender,
     Sm w = Some s /\
     admission s (BackendGasLimit (backend (app w))) txBytes = Accepted tx sender /\
     resp = okResponse /\
     w' = {| heap := <[checkTxState (app w) := applyAccepted tx sender s]> (heap w);
             app := app w |}).
Proof.
  unfold CheckTx, admission.
  destruct (decodeTx txBytes) as [tx|err].
  - intros Hrun. apply validateTx_inv in Hrun as [Hrej|(s & sender & Hadm)].
    + by left.
    + right. by exists s, tx, sender.
  - intros [= <- <-]. left. split; [done|]. by exists (MalformedTx err).
Qed.

(** *** Effects of an admitted transaction *)

(** C3 (as amended): a transaction that [CheckTx] admits carries the
    nonce the mempool state holds for its sender; afterwards that nonce is
    the transaction's nonce plus one in [uint64] arithmetic (plus one
    outright below the largest [uint64]); the sender is debited by
    [cost = value + gasPrice * gasLimit] and then the recipient, if any, is
    credited by the value, so that a sender who pays another account loses
    the cost, the other account gains the value, and a sender who pays
    itself loses only [cost - value]. *)
Theorem CheckTx_accepted_effects (txBytes : list Byte.byte) w resp w' :
  CheckTx txBytes w = Ret (resp, w') ->
  ResponseCheckTx.Code resp = CodeTypeOK ->
  exists tx sender s s',
    decodeTx txBytes = inl tx /\ Sender (signerOf tx) tx = inl sender /\
    Sm w = Some s /\ Sm w' = Some s' /\
    Cost tx = Value tx + GasPrice tx * Gas tx /\
    Nonce tx = StateDB.GetNonce sender s /\
    StateDB.GetNonce sender s' = uint64 (Nonce tx + 1) /\
    (0 <= Nonce tx < MaxUint64 -> StateDB.GetNonce sender s' = Nonce tx + 1) /\
    (To tx <> Some sender ->
     StateDB.GetBalance sender s' = StateDB.GetBalance sender s - Cost tx) /\
    (forall to, To tx = Some to -> to <> sender ->
     StateDB.GetBalance to s' = StateDB.GetBalance to s + Value tx) /\
    (To tx = Some sender ->
     StateDB.GetBalance sender s' =
     StateDB.GetBalance sender s - Cost tx + Value tx).
Proof.
  intros Hrun Hok.
  apply CheckTx_inv in Hrun as [[_ [r ->]]|(s & tx & sender & Hs & Hadm & -> & ->)].
  { by apply reply_not_ok in Hok. }
  apply admission_Accepted in Hadm
    as (Hdec & _ & Hsender & _ & _ & _ & Hnonce & _ & _).
  exists tx, sender, s, (applyAccepted tx sender s).
  split; [done|]. split; [done|]. split; [done|].
  split; [unfold Sm; cbn [heap app]; apply lookup_insert_eq|].
  split; [unfold Cost, Value, GasPrice, Gas; lia|].
  split; [done|].
  unfold applyAccepted.
  split; [apply GetNonce_SetNonce|].
  split.
  { intros Hrange. rewrite GetNonce_SetNonce. unfold uint64, MaxUint64 in *.
    apply Z.mod_small. lia. }
  rewrite !GetBalance_SetNonce.
  split; [|split].
  - intros Hto. destruct (To tx) as [to|].
    + rewrite GetBalance_AddBalance, GetBalance_SubBalance.
      destruct (decide (to = sender)) as [->|]; [done|].
      by rewrite decide_True.
    + rewrite GetBalance_SubBalance. by rewrite decide_True.
  - intros to Hto Hne. rewrite Hto.
    rewrite GetBalance_SetNonce, GetBalance_AddBalance, GetBalance_SubBalance.
    rewrite decide_True by done. by rewrite decide_False.
  - intros Hto. rewrite Hto.
    rewrite GetBalance_AddBalance, GetBalance_SubBalance.
    by rewrite !decide_True.
Qed.

(** *** Rejections *)

(** C4: a call of [CheckTx] that returns anything but OK leaves the whole
    world, and with it the mempool state, as it was; and when the verdict
    is BadNonce with expected nonce 5 and submitted nonce 7, the log
    contains "Expected 5 Got 7". *)
Theorem CheckTx_rejection_keeps_state (txBytes : list Byte.byte) w resp w' :
  CheckTx txBytes w = Ret (resp, w') ->
  ResponseCheckTx.Code resp <> CodeTypeOK ->
  w' = w /\ Sm w' = Sm w /\
  (forall s,
     Sm w = Some s ->
     admission s (BackendGasLimit (backend (app w))) txBytes
     = Rejected (BadNonce 5 7) ->
     contains "Expected 5 Got 7" (ResponseCheckTx.Log resp)).
Proof.
  intros Hrun Hcode.
  assert (w' = w) as ->.
  { apply CheckTx_inv in Hrun as [[-> _]|(s & tx & sender & _ & _ & -> & _)];
      [done | by destruct Hcode]. }
  split; [done|]. split; [done|].
  intros s Hs Hadm.
  assert (CheckTx txBytes w =
          outcome w (admission s (BackendGasLimit (backend (app w))) txBytes))
    as Hout by run_CheckTx Hs.
  rewrite Hout, Hadm in Hrun.
  cbn [outcome] in Hrun. injection Hrun as <-.
  exists "Nonce not strictly increasing. "%string, ""%string. reflexivity.
Qed.

(** C5: a response of [CheckTx] carries the code the error taxonomy gives
    to the rejection that admission decided: Internal for MalformedTx,
    OversizedTx, InvalidSignature and BadNonce, UnknownRequest for
    NegativeValue, InsufficientFunds and IntrinsicGasTooLow, UnknownAddress
    for UnknownSender, OutOfGas for GasLimitExceeded; the code is then not
    OK and the log is not empty, given that the decoder's errors have a
    message.  An admitted transaction is answered with OK. *)
Theorem CheckTx_code_taxonomy (txBytes : list Byte.byte) w s resp w' :
  (forall bs err, decodeTx bs = inr err -> err <> ""%string) ->
  Sm w = Some s ->
  CheckTx txBytes w = Ret (resp, w') ->
  match admission s (BackendGasLimit (backend (app w))) txBytes with
  | Rejected r =>
    ResponseCheckTx.Code resp = numeric (surface r) /\
    ResponseCheckTx.Code resp <> numeric OK /\
    ResponseCheckTx.Log resp <> ""%string
  | Accepted _ _ => ResponseCheckTx.Code resp = numeric OK
  | Aborted => False
  end.
Proof.
  intros Hdec Hs Hrun.
  assert (CheckTx txBytes w =
          outcome w (admission s (BackendGasLimit (backend (app w))) txBytes))
    as Hout by run_CheckTx Hs.
  rewrite Hout in Hrun.
  destruct (admission _ _ _) as [tx sender|r|] eqn:Hadm; cbn [outcome] in Hrun.
  - rewrite Hs in Hrun. by injection Hrun as <- _.
  - injection Hrun as <- _. split; [done|]. split; [apply reply_not_ok|].
    destruct r; try done.
    apply admission_Rejected_MalformedTx in Hadm. by apply Hdec in Hadm.
  - discriminate.
Qed.

(** The numbers behind the abstract codes. *)
Lemma numeric_codes :
  numeric OK = 0 /\ numeric Internal = 1 /\ numeric UnknownRequest = 6 /\
  numeric UnknownAddress = 9 /\ numeric OutOfGas = 12.
Proof. repeat split. Qed.

(** C10: if every balance of the mempool state is non-negative before a
    call of [CheckTx] that returns, every balance is non-negative after
    it, whether the transaction was admitted or rejected. *)
Theorem CheckTx_preserves_nonnegative_balances
  (txBytes : list Byte.byte) w s resp w' :
  Sm w = Some s ->
  balancesNonNegative s ->
  CheckTx txBytes w = Ret (resp, w') ->
  exists s', Sm w' = Some s' /\ balancesNonNegative s'.
Proof.
  intros Hs Hnn Hrun.
  apply CheckTx_inv in Hrun as [[-> _]|(s0 & tx & sender & Hs0 & Hadm & _ & ->)].
  { by exists s. }
  rewrite Hs in Hs0. injection Hs0 as <-.
  apply admission_Accepted in Hadm
    as (_ & _ & _ & Hval & _ & _ & _ & Hfunds & _).
  exists (applyAccepted tx sender s).
  split; [unfold Sm; cbn [heap app]; apply lookup_insert_eq|].
  unfold applyAccepted.
  assert (balancesNonNegative (StateDB.SubBalance sender (Cost tx) s)) as Hsub.
  { unfold StateDB.SubBalance. destruct (Cost tx =? 0);
      apply balancesNonNegative_insert; try done;
      rewrite ?so_balance_GetBalance; cbn [so_balance];
      rewrite ?so_balance_GetBalance;
      [by apply balancesNonNegative_GetBalance | lia]. }
  assert (balancesNonNegative
            match To tx with
            | Some to => StateDB.AddBalance to (Value tx)
                           (StateDB.SubBalance sender (Cost tx) s)
            | None => StateDB.SubBalance sender (Cost tx) s
            end) as Hadd.
  { destruct (To tx) as [to|]; [|done].
    pose proof (balancesNonNegative_GetBalance to _ Hsub) as Hto.
    unfold StateDB.AddBalance. destruct (Value tx =? 0);
      apply balancesNonNegative_insert; try done;
      cbn [so_balance]; rewrite so_balance_GetBalance; lia. }
  unfold StateDB.SetNonce. apply balancesNonNegative_insert; [done|].
  cbn [so_balance]. rewrite so_balance_GetBalance.
  by apply balancesNonNegative_GetBalance.
Qed.

(** C2 (as amended): in the scenario of a sender A at nonce 5 that submits
    T{from=A, to=B, value=100, gas=21000, gasPrice=1, nonce=5}, the cost is
    21100.  With a balance below the cost, as with the balance 1000 of the
    scenario, [CheckTx] rejects with InsufficientFunds and the mempool
    state is unchanged; with a balance that covers the cost, [CheckTx]
    answers OK and the mempool state then holds nonce 6 and the balance
    less 21100 for A (879 from a balance of 21979). *)
Theorem CheckTx_transfer_scenario (txBytes : list Byte.byte) w s tx
  (A B' : Address) (balance : Z) :
  decodeTx txBytes = inl tx ->
  Size tx <= maxTransactionSize ->
  Sender (signerOf tx) tx = inl A ->
  To tx = Some B' -> A <> B' ->
  Value tx = 100 -> Gas tx = 21000 -> GasPrice tx = 1 -> Nonce tx = 5 ->
  Data tx = [] ->
  21000 <= BackendGasLimit (backend (app w)) ->
  Sm w = Some s ->
  s !! A = Some {| so_nonce := 5; so_balance := balance |} ->
  (balance < 21100 ->
   CheckTx txBytes w = Ret (reply (InsufficientFunds balance 21100), w)) /\
  (21100 <= balance ->
   exists w' s',
     CheckTx txBytes w = Ret (okResponse, w') /\ Sm w' = Some s' /\
     StateDB.GetNonce A s' = 6 /\
     StateDB.GetBalance A s' = balance - 21100).
Proof.
  intros Hdec Hsize Hsender Hto Hne Hvalue Hgas Hprice Hnonce Hdata Hlimit Hs HA.
  assert (CheckTx txBytes w =
          outcome w (admission s (BackendGasLimit (backend (app w))) txBytes))
    as -> by run_CheckTx Hs.
  unfold admission. rewrite Hdec. unfold checkDecoded.
  replace (maxTransactionSize <? Size tx) with false by (symmetry; lia).
  unfold checkSigned, statefulChecks. rewrite Hsender.
  assert (Cost tx = 21100) as Hcost.
  { unfold Cost. unfold Value, Gas, GasPrice in *. lia. }
  assert (StateDB.Exist A s = true) as ->.
  { unfold StateDB.Exist. apply bool_decide_eq_true. by rewrite HA. }
  assert (StateDB.GetNonce A s = 5) as ->.
  { unfold StateDB.GetNonce. by rewrite HA. }
  assert (StateDB.GetBalance A s = balance) as Hbal.
  { unfold StateDB.GetBalance. by rewrite HA. }
  rewrite Hbal, Hcost, Hvalue, Hgas, Hnonce, Hdata, Hto. cbn [first_failure negb].
  replace (0 <=? 100) with true by done.
  replace (BackendGasLimit (backend (app w)) <? 21000) with false
    by (symmetry; lia).
  cbn.
  split; intros Hb.
  - replace (balance <? 21100) with true by (symmetry; lia). reflexivity.
  - replace (balance <? 21100) with false by (symmetry; lia).
    unfold outcome. rewrite Hs.
    eexists _, _. split; [reflexivity|].
    split; [unfold Sm; cbn [heap app]; apply lookup_insert_eq|].
    unfold applyAccepted. rewrite Hto, Hcost, Hvalue, Hnonce.
    split; [by rewrite GetNonce_SetNonce|].
    rewrite GetBalance_SetNonce, GetBalance_AddBalance, GetBalance_SubBalance.
    rewrite decide_False by done. rewrite decide_True by done. lia.
Qed.

(** *** [Info] *)

(** C6 (as amended): at height 0 [Info] returns height 0 and an empty
    [LastBlockAppHash]; at every height above 0 it returns the hash of the
    current head block, together with the height converted to [int64],
    which is the height itself for every height up to the largest
    [int64]. *)
Theorem Info_sentinel w :
  let currentBlock := CurrentBlock (backend (app w)) in
  (Number currentBlock = 0 ->
   Info w = Ret ({| ResponseInfo.Data := "ABCIEthereum";
                    ResponseInfo.LastBlockHeight := 0;
                    ResponseInfo.LastBlockAppHash := [] |}, w)) /\
  (0 < Number currentBlock ->
   Info w = Ret ({| ResponseInfo.Data := "ABCIEthereum";
                    ResponseInfo.LastBlockHeight := Int64 (Number currentBlock);
                    ResponseInfo.LastBlockAppHash := BlockHash currentBlock |}, w) /\
   (Number currentBlock <= MaxInt64 ->
    Int64 (Number currentBlock) = Number currentBlock)).
Proof.
  intros currentBlock. subst currentBlock. unfold Info.
  rewrite bind_run. cbn [getApp]. unfold bigZero. split.
  - intros ->. reflexivity.
  - intros Hpos. split.
    + replace (Number _ =? 0) with false by (symmetry; lia). reflexivity.
    + intros Hmax. unfold Int64, MaxInt64 in *.
      rewrite Z.mod_small by lia. lia.
Qed.

(** *** [DeliverTx] and [Commit] *)

Variable Receiver : @EthermintApplication B S -> Address.
Variable CollectTx :
  Transaction -> @EthermintApplication B S -> @EthermintApplication B S.

(** C9: [DeliverTx] always returns.  Bytes that fail to decode are
    answered with the code Internal and the decode error as log, and the
    world is untouched; a transaction the backend rejects is answered
    with the response of the backend, and the pending block stays open;
    a transaction the backend accepts is collected and answered with OK. *)
Theorem DeliverTx_reports_failures (txBytes : list Byte.byte) w :
  exists resp w',
    DeliverTx CollectTx txBytes w = Ret (resp, w') /\
    match decodeTx txBytes with
    | inr err =>
      resp = {| ResponseDeliverTx.Code := numeric Internal;
                ResponseDeliverTx.Data := [];
                ResponseDeliverTx.Log := err |} /\ w' = w
    | inl tx =>
      let '(res, b) := BackendDeliverTx tx (backend (app w)) in
      if ResponseDeliverTx.IsErr res then
        resp = res /\ ResponseDeliverTx.Code resp <> CodeTypeOK /\
        w' = {| heap := heap w; app := set_backend b (app w) |} /\
        requestBeginBlock (app w') = requestBeginBlock (app w)
      else
        ResponseDeliverTx.Code resp = CodeTypeOK /\
        w' = {| heap := heap w; app := CollectTx tx (set_backend b (app w)) |}
    end.
Proof.
  unfold DeliverTx.
  destruct (decodeTx txBytes) as [tx|err].
  - rewrite bind_run. unfold callBackend.
    destruct (BackendDeliverTx tx (backend (app w))) as [res b].
    destruct (ResponseDeliverTx.IsErr res) eqn:Herr.
    + eexists _, _. split; [reflexivity|]. split; [done|].
      split; [|done]. unfold ResponseDeliverTx.IsErr in Herr.
      apply negb_true_iff in Herr. lia.
    + eexists _, _. split; [reflexivity|]. done.
  - eexists _, _. split; [reflexivity|]. done.
Qed.

(** Admission writes to no object of the heap but the mempool state. *)
Lemma validateTx_frame tx w resp w' p :
  validateTx tx w = Ret (resp, w') ->
  p <> checkTxState (app w) ->
  heap w' !! p = heap w !! p.
Proof.
  intros Hrun Hp.
  apply validateTx_inv in Hrun as [[-> _]|(s & sender & _ & _ & _ & ->)];
    [done|].
  cbn [heap]. by apply lookup_insert_ne.
Qed.

(** What [Commit] does, by the answer of the backend and of
    [getCurrentState]. *)
Lemma Commit_run w blockHash err b h st :
  BackendCommit (Receiver (app w)) (backend (app w)) = ((blockHash, err), b) ->
  getCurrentState (app w) b (heap w) = (h, st) ->
  Commit Receiver w =
  match err with
  | Some _ => Panic "Error getting latest ethereum state"
  | None =>
    match st with
    | inr _ => Panic "Error getting latest state"
    | inl state =>
      match h !! state with
      | None => Panic nilDereference
      | Some sc =>
        Ret ({| ResponseCommit.Data := blockHash |},
             {| heap := <[fresh (dom h) := sc]> h;
                app := set_requestBeginBlock None
                         (set_checkTxState (fresh (dom h))
                            (set_backend b (app w))) |})
      end
    end
  end.
Proof.
  intros Hcommit Hstate.
  unfold Commit. rewrite bind_run. cbn [getApp].
  rewrite bind_run. unfold callBackend at 1. rewrite Hcommit.
  destruct err as [e|]; [reflexivity|].
  rewrite bind_run. unfold callGetCurrentState.
  cbn [app heap set_backend getCurrentState backend]. rewrite Hstate.
  destruct st as [state|e]; [|reflexivity].
  rewrite bind_run. unfold Copy. rewrite bind_run. unfold load. cbn [heap].
  destruct (h !! state) as [sc|]; reflexivity.
Qed.

(** C7: after every call of [Commit] that returns, the backend has
    committed without error and handed out the committed state; the
    response carries the block hash of the backend as data; the stored
    BeginBlock request is forgotten; and the mempool state is a newly
    allocated object with the contents of the committed state: no pointer
    that existed before refers to it, every other object is as the backend
    left it, and a later admission leaves the committed state object as it
    is. *)
Theorem Commit_rebuilds_mempool_state w resp w' :
  Commit Receiver w = Ret (resp, w') ->
  exists blockHash b h state sc,
    BackendCommit (Receiver (app w)) (backend (app w)) = ((blockHash, None), b) /\
    getCurrentState (app w) b (heap w) = (h, inl state) /\
    h !! state = Some sc /\
    ResponseCommit.Data resp = blockHash /\
    requestBeginBlock (app w') = None /\
    backend (app w') = b /\
    Sm w' = Some sc /\
    heap w' !! state = Some sc /\
    (checkTxState (app w') ∉ dom h) /\
    checkTxState (app w') <> state /\
    (forall p, p <> checkTxState (app w') -> heap w' !! p = h !! p) /\
    (forall tx resp2 w2,
       validateTx tx w' = Ret (resp2, w2) -> heap w2 !! state = Some sc).
Proof.
  destruct (BackendCommit (Receiver (app w)) (backend (app w)))
    as [[blockHash err] b] eqn:Hcommit.
  destruct (getCurrentState (app w) b (heap w)) as [h st] eqn:Hstate.
  rewrite (Commit_run _ _ _ _ _ _ Hcommit Hstate).
  destruct err as [e|]; [discriminate|].
  destruct st as [state|e]; [|discriminate].
  destruct (h !! state) as [sc|] eqn:Hsc; [|discriminate].
  intros [= <- <-].
  assert (fresh (dom h) ∉ dom h) as Hfresh by apply is_fresh.
  assert (fresh (dom h) <> state) as Hne.
  { intros Heq. apply Hfresh. rewrite Heq. apply elem_of_dom. by eexists. }
  exists blockHash, b, h, state, sc.
  cbn [heap app ResponseCommit.Data requestBeginBlock set_requestBeginBlock
       set_checkTxState backend checkTxState set_backend].
  split; [done|]. split; [done|]. split; [done|].
  split; [done|]. split; [done|]. split; [done|].
  split; [unfold Sm; cbn; apply lookup_insert_eq|].
  split; [by rewrite lookup_insert_ne|].
  split; [done|]. split; [done|].
  split; [intros p Hp; by rewrite lookup_insert_ne|].
  intros tx resp2 w2 Hrun.
  rewrite (validateTx_frame _ _ _ _ state Hrun); cbn [heap app checkTxState];
    [by rewrite lookup_insert_ne | done].
Qed.

(** C8: when the backend reports an error on commit, or commits but the
    committed state cannot be had, [Commit] panics: it does not return. *)
Theorem Commit_fatal w blockHash err b h st :
  BackendCommit (Receiver (app w)) (backend (app w)) = ((blockHash, err), b) ->
  getCurrentState (app w) b (heap w) = (h, st) ->
  (is_Some err ->
   Commit Receiver w = Panic "Error getting latest ethereum state") /\
  (err = None -> (exists e, st = inr e) ->
   Commit Receiver w = Panic "Error getting latest state") /\
  (is_Some err \/ (exists e, st = inr e) ->
   forall resp w', Commit Receiver w <> Ret (resp, w')).
Proof.
  intros Hcommit Hstate.
  rewrite (Commit_run _ _ _ _ _ _ Hcommit Hstate).
  split; [by intros [e ->]|].
  split; [by intros -> [e ->]|].
  intros Hfail resp w'. destruct err as [e|]; [done|].
  destruct Hfail as [[? [=]]|[e ->]]. done.
Qed.

End Properties.

(** ** The scenarios of the specification, run on the test double *)

Section Scenarios.

Import Fixture.
Existing Instance codec.
Existing Instance memOps.

Lemma decode_error_has_message (bs : list Byte.byte) (err : string) :
  decodeTx bs = inr err -> err <> ""%string.
Proof.
  cbn [decodeTx codec]. unfold decode.
  destruct bs as [|n [|to [|x rest]]]; intros [= <-]; discriminate.
Qed.

Lemma funded_nonnegative (balance : Z) :
  0 <= balance -> balancesNonNegative (funded balance).
Proof.
  intros Hb addr so. unfold funded.
  rewrite lookup_singleton_Some. by intros [_ <-].
Qed.

(** C1 (counterexample): 32769 bytes that do not decode exceed the size
    bound, so the order of the specification rejects them as OversizedTx;
    [CheckTx] answers with the decode error instead. *)
Lemma CheckTx_decodes_before_size_check :
  maxTransactionSize < Z.of_nat (List.length junk) /\
  statedAdmission (funded 1000) 8000000 junk = Rejected OversizedTx /\
  CheckTx junk (scene 1000) =
  Ret ({| ResponseCheckTx.Code := 1;
          ResponseCheckTx.Log := "rlp: expected input list for types.txdata" |},
       scene 1000) /\
  CheckTx junk (scene 1000) <>
  outcome (scene 1000)
    (statedAdmission (funded 1000)
       (BackendGasLimit (backend (app (scene 1000)))) junk).
Proof.
  assert (CheckTx junk (scene 1000) =
          Ret ({| ResponseCheckTx.Code := 1;
                  ResponseCheckTx.Log :=
                    "rlp: expected input list for types.txdata" |},
               scene 1000)) as Hrun by (vm_compute; reflexivity).
  assert (statedAdmission (funded 1000) 8000000 junk = Rejected OversizedTx)
    as Hstated by (vm_compute; reflexivity).
  split; [vm_compute; reflexivity|]. split; [exact Hstated|].
  split; [exact Hrun|].
  rewrite Hrun. change (BackendGasLimit _) with 8000000. rewrite Hstated.
  cbn [outcome]. intros Heq. discriminate Heq.
Qed.

Lemma CheckTx_check_order_witness :
  Sm (scene 1000) = Some (funded 1000) /\
  CheckTx [Byte.x07; Byte.x0b] (scene 1000) =
  outcome (scene 1000)
    (admission (funded 1000) (BackendGasLimit (backend (app (scene 1000))))
       [Byte.x07; Byte.x0b]).
Proof.
  split; [vm_compute; reflexivity|].
  apply (CheckTx_check_order [Byte.x07; Byte.x0b] (scene 1000) (funded 1000)).
  vm_compute; reflexivity.
Defined.

(** C2 (counterexample): in the scenario as written, with balance 1000,
    [CheckTx] rejects the transaction for insufficient funds and the
    mempool state keeps nonce 5 and balance 1000. *)
Lemma CheckTx_scenario_is_rejected :
  decodeTx [Byte.x05; Byte.x0b] = inl (transfer 5 bob) /\
  Sender (signerOf (transfer 5 bob)) (transfer 5 bob) = inl alice /\
  Sm (scene 1000) = Some (funded 1000) /\
  CheckTx [Byte.x05; Byte.x0b] (scene 1000) =
  Ret ({| ResponseCheckTx.Code := 6;
          ResponseCheckTx.Log := "Current balance: 1000, tx cost: 21100" |},
       scene 1000) /\
  ~ (exists w' s',
       CheckTx [Byte.x05; Byte.x0b] (scene 1000) = Ret (okResponse, w') /\
       Sm w' = Some s' /\
       StateDB.GetNonce alice s' = 6 /\ StateDB.GetBalance alice s' = 879).
Proof.
  assert (CheckTx [Byte.x05; Byte.x0b] (scene 1000) =
          Ret ({| ResponseCheckTx.Code := 6;
                  ResponseCheckTx.Log :=
                    "Current balance: 1000, tx cost: 21100" |},
               scene 1000)) as Hrun by (vm_compute; reflexivity).
  split; [reflexivity|]. split; [reflexivity|].
  split; [vm_compute; reflexivity|]. split; [exact Hrun|].
  intros (w' & s' & Hok & _). rewrite Hrun in Hok. discriminate Hok.
Qed.

Lemma CheckTx_transfer_scenario_witness :
  CheckTx [Byte.x05; Byte.x0b] (scene 1000) =
  Ret (reply (InsufficientFunds 1000 21100), scene 1000) /\
  exists w' s',
    CheckTx [Byte.x05; Byte.x0b] (scene 21979) = Ret (okResponse, w') /\
    Sm w' = Some s' /\
    StateDB.GetNonce alice s' = 6 /\
    StateDB.GetBalance alice s' = 21979 - 21100.
Proof.
  split.
  - apply (CheckTx_transfer_scenario [Byte.x05; Byte.x0b] (scene 1000)
             (funded 1000) (transfer 5 bob) alice bob 1000);
      try (vm_compute; reflexivity); try (vm_compute; discriminate).
  - apply (CheckTx_transfer_scenario [Byte.x05; Byte.x0b] (scene 21979)
             (funded 21979) (transfer 5 bob) alice bob 21979);
      try (vm_compute; reflexivity); try (vm_compute; discriminate).
Defined.

(** C3 (counterexample): [alice] at balance 30000 pays 100 to herself.
    The transaction is admitted, its cost is 21100, and her balance in
    the mempool state drops to 9000, not to 30000 - 21100 = 8900. *)
Lemma CheckTx_self_transfer :
  decodeTx [Byte.x05; Byte.x0a] = inl (transfer 5 alice) /\
  Sender (signerOf (transfer 5 alice)) (transfer 5 alice) = inl alice /\
  To (transfer 5 alice) = Some alice /\
  Cost (transfer 5 alice) = 21100 /\
  Sm (scene 30000) = Some (funded 30000) /\
  StateDB.GetBalance alice (funded 30000) = 30000 /\
  CheckTx [Byte.x05; Byte.x0a] (scene 30000) =
  Ret ({| ResponseCheckTx.Code := 0; ResponseCheckTx.Log := "" |},
       {| heap := {[ 1%positive :=
                       {[ alice := {| so_nonce := 6; so_balance := 9000 |} ]} ]};
          app := app (scene 30000) |}) /\
  9000 <> StateDB.GetBalance alice (funded 30000) - Cost (transfer 5 alice).
Proof.
  repeat split; try (vm_compute; reflexivity). vm_compute. discriminate.
Qed.

Lemma CheckTx_accepted_effects_witness :
  exists w',
    CheckTx [Byte.x05; Byte.x0b] (scene 30000) = Ret (okResponse, w') /\
    exists s',
      Sm w' = Some s' /\
      StateDB.GetNonce alice s' = 6 /\
      StateDB.GetBalance alice s' = 8900 /\
      StateDB.GetBalance bob s' = 100.
Proof.
  assert (exists w',
            CheckTx [Byte.x05; Byte.x0b] (scene 30000) = Ret (okResponse, w'))
    as [w' Hrun] by (eexists; vm_compute; reflexivity).
  exists w'. split; [exact Hrun|].
  destruct (CheckTx_accepted_effects _ _ _ _ Hrun eq_refl)
    as (tx & sender & s & s' & Hdec & Hsender & Hs & Hs' & _ & _ & _
        & Hnonce & Hdebit & Hcredit & _).
  cbn [decodeTx codec decode] in Hdec. injection Hdec as <-.
  cbv in Hsender. injection Hsender as <-.
  assert (Sm (scene 30000) = Some (funded 30000)) as Hs0
    by (vm_compute; reflexivity).
  rewrite Hs0 in Hs. injection Hs as <-.
  exists s'. split; [exact Hs'|].
  split; [apply Hnonce; unfold MaxUint64; cbn; lia|].
  split.
  - etransitivity; [apply Hdebit; discriminate | vm_compute; reflexivity].
  - etransitivity; [apply (Hcredit bob eq_refl); discriminate
                   | vm_compute; reflexivity].
Defined.

Lemma CheckTx_rejection_keeps_state_witness :
  CheckTx [Byte.x07; Byte.x0b] (scene 1000) =
  Ret ({| ResponseCheckTx.Code := 1;
          ResponseCheckTx.Log :=
            "Nonce not strictly increasing. Expected 5 Got 7" |},
       scene 1000) /\
  contains "Expected 5 Got 7" "Nonce not strictly increasing. Expected 5 Got 7".
Proof.
  assert (CheckTx [Byte.x07; Byte.x0b] (scene 1000) =
          Ret ({| ResponseCheckTx.Code := 1;
                  ResponseCheckTx.Log :=
                    "Nonce not strictly increasing. Expected 5 Got 7" |},
               scene 1000)) as Hrun by (vm_compute; reflexivity).
  split; [exact Hrun|].
  destruct (CheckTx_rejection_keeps_state _ _ _ _ Hrun) as (_ & _ & Hlog);
    [vm_compute; discriminate|].
  apply (Hlog (funded 1000)); vm_compute; reflexivity.
Defined.

Lemma CheckTx_code_taxonomy_witness :
  ResponseCheckTx.Code
    {| ResponseCheckTx.Code := 6;
       ResponseCheckTx.Log := "Current balance: 1000, tx cost: 21100" |}
  = numeric (surface (InsufficientFunds 1000 21100)) /\
  ResponseCheckTx.Log
    {| ResponseCheckTx.Code := 6;
       ResponseCheckTx.Log := "Current balance: 1000, tx cost: 21100" |}
  <> ""%string.
Proof.
  pose proof (CheckTx_code_taxonomy [Byte.x05; Byte.x0b] (scene 1000)
                (funded 1000)
                {| ResponseCheckTx.Code := 6;
                   ResponseCheckTx.Log :=
                     "Current balance: 1000, tx cost: 21100" |}
                (scene 1000) decode_error_has_message) as Htax.
  assert (admission (funded 1000)
            (BackendGasLimit (backend (app (scene 1000)))) [Byte.x05; Byte.x0b]
          = Rejected (InsufficientFunds 1000 21100)) as Hadm
    by (vm_compute; reflexivity).
  rewrite Hadm in Htax.
  destruct Htax as (Hcode & _ & Hlog); try (vm_compute; reflexivity).
  split; [exact Hcode | exact Hlog].
Defined.

Lemma CheckTx_preserves_nonnegative_balances_witness :
  exists w',
    CheckTx [Byte.x05; Byte.x0b] (scene 30000) = Ret (okResponse, w') /\
    exists s', Sm w' = Some s' /\ balancesNonNegative s'.
Proof.
  assert (exists w',
            CheckTx [Byte.x05; Byte.x0b] (scene 30000) = Ret (okResponse, w'))
    as [w' Hrun] by (eexists; vm_compute; reflexivity).
  exists w'. split; [exact Hrun|].
  apply (CheckTx_preserves_nonnegative_balances [Byte.x05; Byte.x0b]
           (scene 30000) (funded 30000) okResponse w');
    [vm_compute; reflexivity | apply funded_nonnegative; lia | exact Hrun].
Defined.

(** C6 (counterexample): with the head block at height 2^63, which no
    [int64] holds, [Info] reports the height -2^63. *)
Lemma Info_height_beyond_int64 :
  Number (CurrentBlock (backend (app (world (2 ^ 63) 1000 None currentState None))))
  = 2 ^ 63 /\
  0 < 2 ^ 63 /\
  Info (world (2 ^ 63) 1000 None currentState None) =
  Ret ({| ResponseInfo.Data := "ABCIEthereum";
          ResponseInfo.LastBlockHeight := - 2 ^ 63;
          ResponseInfo.LastBlockAppHash := [Byte.x01] |},
       world (2 ^ 63) 1000 None currentState None) /\
  - 2 ^ 63 <> 2 ^ 63.
Proof.
  split; [reflexivity|]. split; [reflexivity|].
  split; [vm_compute; reflexivity | discriminate].
Qed.

Lemma Info_sentinel_witness :
  Info (world 0 1000 None currentState None) =
  Ret ({| ResponseInfo.Data := "ABCIEthereum";
          ResponseInfo.LastBlockHeight := 0;
          ResponseInfo.LastBlockAppHash := [] |},
       world 0 1000 None currentState None) /\
  Info (scene 1000) =
  Ret ({| ResponseInfo.Data := "ABCIEthereum";
          ResponseInfo.LastBlockHeight := 3;
          ResponseInfo.LastBlockAppHash := [Byte.x01] |},
       scene 1000).
Proof.
  split.
  - apply (Info_sentinel (world 0 1000 None currentState None)). reflexivity.
  - destruct (Info_sentinel (scene 1000)) as [_ Hpos].
    destruct Hpos as [Hrun _]; [reflexivity|]. exact Hrun.
Defined.

Lemma Commit_rebuilds_mempool_state_witness :
  exists resp w',
    Commit receiver (world 3 30000 None currentState (Some openBlock))
    = Ret (resp, w') /\
    ResponseCommit.Data resp = [Byte.xab; Byte.xcd] /\
    requestBeginBlock (app w') = None /\
    Sm w' = Some (funded 30000) /\
    checkTxState (app w') <> 2%positive.
Proof.
  assert (exists resp w',
            Commit receiver (world 3 30000 None currentState (Some openBlock))
            = Ret (resp, w')) as (resp & w' & Hrun).
  { eexists _, _.
    rewrite (Commit_run receiver _ [Byte.xab; Byte.xcd] None
               {| head := nextBlock (head (mem 3 30000 None));
                  blockGasLimit := 8000000;
                  committed := funded 30000; commitError := None |}
               (<[2%positive := funded 30000]> {[ 1%positive := funded 30000 ]})
               (inl 2%positive)) by (vm_compute; reflexivity).
    rewrite lookup_insert_eq. reflexivity. }
  exists resp, w'. split; [exact Hrun|].
  destruct (Commit_rebuilds_mempool_state receiver _ _ _ Hrun)
    as (blockHash & b & h & state & sc & Hcommit & Hstate & Hsc & Hdata
        & Hreq & _ & Hsm & _ & _ & Hne & _).
  cbv in Hcommit. injection Hcommit as <- <-.
  cbn [getCurrentState app world currentState] in Hstate.
  injection Hstate as <- <-.
  rewrite lookup_insert_eq in Hsc. injection Hsc as <-.
  repeat split; assumption.
Defined.

Lemma Commit_fatal_witness :
  Commit receiver (world 3 1000 (Some "disk full"%string) currentState None)
  = Panic "Error getting latest ethereum state" /\
  Commit receiver (world 3 1000 None noState None)
  = Panic "Error getting latest state".
Proof.
  split.
  - destruct (Commit_fatal receiver
                (world 3 1000 (Some "disk full"%string) currentState None)
                [Byte.xab; Byte.xcd] (Some "disk full"%string)
                {| head := nextBlock (head (mem 3 1000 None));
                   blockGasLimit := 8000000;
                   committed := funded 1000;
                   commitError := Some "disk full"%string |}
                (<[2%positive := funded 1000]> {[ 1%positive := funded 1000 ]})
                (inl 2%positive))
      as (Hfatal & _);
      [vm_compute; reflexivity | vm_compute; reflexivity |].
    apply Hfatal. by eexists.
  - destruct (Commit_fatal receiver (world 3 1000 None noState None)
                [Byte.xab; Byte.xcd] None
                {| head := nextBlock (head (mem 3 1000 None));
                   blockGasLimit := 8000000;
                   committed := funded 1000; commitError := None |}
                {[ 1%positive := funded 1000 ]}
                (inr "missing trie node"%string))
      as (_ & Hfatal & _);
      [vm_compute; reflexivity | vm_compute; reflexivity |].
    apply Hfatal; [reflexivity | by eexists].
Defined.

End Scenarios.

(** ** Further properties of [app.go] *)

Section MoreProperties.

Context {B S J : Type} `{!TxCodec} `{!BackendOps B} `{!QueryOps B J}.
Implicit Types (w : @World B S) (s : gmap N stateObject).

(** [CheckTx] on a world whose mempool state is known, by the verdict of
    admission. *)
Lemma CheckTx_outcome (txBytes : list Byte.byte) w s :
  Sm w = Some s ->
  CheckTx txBytes w =
  outcome w (admission s (BackendGasLimit (backend (app w))) txBytes).
Proof.
  intros Hs. unfold CheckTx, admission.
  destruct (decodeTx txBytes); [by apply validateTx_outcome | reflexivity].
Qed.

(** The conditions that make admission accept. *)
Lemma admission_accepts s gasLimit bs tx sender intrGas :
  decodeTx bs = inl tx -> Size tx <= maxTransactionSize ->
  Sender (signerOf tx) tx = inl sender ->
  0 <= Value tx -> is_Some (s !! sender) -> Gas tx <= gasLimit ->
  StateDB.GetNonce sender s = Nonce tx ->
  Cost tx <= StateDB.GetBalance sender s ->
  IntrinsicGas (Data tx) (bool_decide (To tx = None)) true = inl intrGas ->
  intrGas <= Gas tx ->
  admission s gasLimit bs = Accepted tx sender.
Proof.
  intros Hdec Hsize Hsender Hval Hex Hgas Hnonce Hfunds Hintr Hig.
  unfold admission, checkDecoded, checkSigned, statefulChecks.
  rewrite Hdec, Hsender, Hintr. cbn [first_failure].
  replace (maxTransactionSize <? Size tx) with false by (symmetry; lia).
  replace (Value tx <? 0) with false by (symmetry; lia).
  replace (StateDB.Exist sender s) with true
    by (symmetry; unfold StateDB.Exist; by apply bool_decide_eq_true).
  replace (gasLimit <? Gas tx) with false by (symmetry; lia).
  replace (StateDB.GetNonce sender s =? Nonce tx) with true by (symmetry; lia).
  replace (StateDB.GetBalance sender s <? Cost tx) with false by (symmetry; lia).
  replace (Gas tx <? intrGas) with false by (symmetry; lia).
  reflexivity.
Qed.

(** Adding one never gives the number back, also when [uint64] wraps. *)
Lemma uint64_succ_ne (n : Z) : uint64 (n + 1) <> n.
Proof.
  unfold uint64. intros Heq.
  assert (0 <= n < 2 ^ 64) as Hrange
    by (rewrite <- Heq; apply Z.mod_pos_bound; lia).
  destruct (Z.eq_dec n (2 ^ 64 - 1)) as [->|Hne].
  - vm_compute in Heq. discriminate.
  - rewrite Z.mod_small in Heq by lia. lia.
Qed.

Lemma lookup_SubBalance_ne a a' amount s :
  a <> a' -> StateDB.SubBalance a amount s !! a' = s !! a'.
Proof.
  intros Hne. unfold StateDB.SubBalance.
  destruct (amount =? 0); by rewrite lookup_insert_ne.
Qed.

Lemma lookup_AddBalance_ne a a' amount s :
  a <> a' -> StateDB.AddBalance a amount s !! a' = s !! a'.
Proof.
  intros Hne. unfold StateDB.AddBalance.
  destruct (amount =? 0); by rewrite lookup_insert_ne.
Qed.

Lemma lookup_SetNonce_ne a a' nonce s :
  a <> a' -> StateDB.SetNonce a nonce s !! a' = s !! a'.
Proof. intros Hne. unfold StateDB.SetNonce. by rewrite lookup_insert_ne. Qed.

Lemma GetNonce_SubBalance a a' amount s :
  StateDB.GetNonce a' (StateDB.SubBalance a amount s) = StateDB.GetNonce a' s.
Proof.
  unfold StateDB.GetNonce, StateDB.SubBalance, StateDB.GetOrNewStateObject.
  destruct (amount =? 0); rewrite lookup_insert;
    destruct (decide (a = a')) as [->|]; try done; by destruct (s !! a').
Qed.

Lemma GetNonce_AddBalance a a' amount s :
  StateDB.GetNonce a' (StateDB.AddBalance a amount s) = StateDB.GetNonce a' s.
Proof.
  unfold StateDB.GetNonce, StateDB.AddBalance, StateDB.GetOrNewStateObject.
  destruct (amount =? 0); rewrite lookup_insert;
    destruct (decide (a = a')) as [->|]; try done; by destruct (s !! a').
Qed.

Lemma GetNonce_SetNonce_ne a a' nonce s :
  a <> a' -> StateDB.GetNonce a' (StateDB.SetNonce a nonce s) = StateDB.GetNonce a' s.
Proof. intros Hne. unfold StateDB.GetNonce. by rewrite lookup_SetNonce_ne. Qed.

(** The nonces of the mempool state after an accepted transaction. *)
Lemma GetNonce_applyAccepted tx sender a s :
  StateDB.GetNonce a (applyAccepted tx sender s) =
  if decide (sender = a) then uint64 (Nonce tx + 1) else StateDB.GetNonce a s.
Proof.
  unfold applyAccepted. destruct (decide (sender = a)) as [->|Hne].
  - apply GetNonce_SetNonce.
  - rewrite GetNonce_SetNonce_ne by done.
    destruct (To tx); by rewrite ?GetNonce_AddBalance, GetNonce_SubBalance.
Qed.

Lemma count_nonzero_bounds (data : list Byte.byte) :
  0 <= count_nonzero data <= Z.of_nat (List.length data).
Proof.
  unfold count_nonzero. split; [lia|].
  apply inj_le. induction data as [|b data IH]; cbn; [lia|].
  destruct (negb _); cbn; lia.
Qed.


Lemma IntrinsicGas_floor (data : list Byte.byte) (creation : bool) (intrGas : Z) :
  IntrinsicGas data creation true = inl intrGas ->
  (if creation then TxGasContractCreation else TxGas)
  + TxDataZeroGas * Z.of_nat (List.length data) <= intrGas.
Proof.
  pose proof (count_nonzero_bounds data) as Hnz.
  unfold IntrinsicGas. rewrite andb_true_r.
  destruct (0 <? Z.of_nat (List.length data)) eqn:Hlen.
  - cbv zeta. destruct (_ <? count_nonzero data); [discriminate|].
    destruct (_ <? Z.of_nat _ - _); [discriminate|]. intros [= <-].
    unfold TxDataZeroGas, TxDataNonZeroGas. lia.
  - intros [= <-]. apply Z.ltb_ge in Hlen. unfold TxDataZeroGas. lia.
Qed.

(** *** When [CheckTx] accepts *)

(** X1: on a world with a mempool state, [CheckTx] answers OK exactly when
    the bytes decode, the size is at most 32768, the sender is recovered
    and exists, the value is not negative, the gas is at most the block gas
    limit, the nonce is the one of the sender, the balance is at least the
    cost and the gas is at least the intrinsic gas.  All bounds are
    inclusive. *)
Theorem CheckTx_accepts_iff (txBytes : list Byte.byte) w s :
  Sm w = Some s ->
  (exists resp w',
     CheckTx txBytes w = Ret (resp, w') /\
     ResponseCheckTx.Code resp = CodeTypeOK) <->
  (exists tx sender intrGas,
     decodeTx txBytes = inl tx /\ Size tx <= maxTransactionSize /\
     Sender (signerOf tx) tx = inl sender /\
     0 <= Value tx /\ is_Some (s !! sender) /\
     Gas tx <= BackendGasLimit (backend (app w)) /\
     StateDB.GetNonce sender s = Nonce tx /\
     Cost tx <= StateDB.GetBalance sender s /\
     IntrinsicGas (Data tx) (bool_decide (To tx = None)) true = inl intrGas /\
     intrGas <= Gas tx).
Proof.
  intros Hs. split.
  - intros (resp & w' & Hrun & Hok).
    apply CheckTx_inv in Hrun
      as [[_ [r ->]]|(s0 & tx & sender & Hs0 & Hadm & _ & _)].
    { by apply reply_not_ok in Hok. }
    rewrite Hs in Hs0. injection Hs0 as <-.
    apply admission_Accepted in Hadm
      as (Hdec & Hsize & Hsender & Hval & Hex & Hgas & Hnonce & Hfunds
          & intrGas & Hintr & Hig).
    by exists tx, sender, intrGas.
  - intros (tx & sender & intrGas & Hdec & Hsize & Hsender & Hval & Hex & Hgas
            & Hnonce & Hfunds & Hintr & Hig).
    rewrite (CheckTx_outcome _ _ _ Hs).
    rewrite (admission_accepts _ _ _ tx sender intrGas) by done.
    cbn [outcome]. rewrite Hs. by eexists _, _.
Qed.

(** X2: a transaction that [CheckTx] has just accepted is rejected when it
    is submitted again: the nonce of its sender has moved on, so the answer
    is BadNonce, and the mempool state stays as the first call left it. *)
Theorem CheckTx_replay_rejected (txBytes : list Byte.byte) w resp w' :
  CheckTx txBytes w = Ret (resp, w') ->
  ResponseCheckTx.Code resp = CodeTypeOK ->
  exists tx,
    decodeTx txBytes = inl tx /\
    CheckTx txBytes w' =
    Ret (reply (BadNonce (uint64 (Nonce tx + 1)) (Nonce tx)), w').
Proof.
  intros Hrun Hok.
  apply CheckTx_inv in Hrun
    as [[_ [r ->]]|(s & tx & sender & Hs & Hadm & _ & ->)].
  { by apply reply_not_ok in Hok. }
  apply admission_Accepted in Hadm
    as (Hdec & Hsize & Hsender & Hval & Hex & Hgas & Hnonce & _ & _).
  exists tx. split; [done|].
  set (w1 := {| heap := _; app := app w |}).
  assert (Sm w1 = Some (applyAccepted tx sender s)) as Hs1
    by (unfold Sm; cbn [heap app]; apply lookup_insert_eq).
  rewrite (CheckTx_outcome _ _ _ Hs1). cbn [app].
  unfold admission, checkDecoded, checkSigned, statefulChecks.
  rewrite Hdec, Hsender. cbn [first_failure].
  replace (maxTransactionSize <? Size tx) with false by (symmetry; lia).
  replace (Value tx <? 0) with false by (symmetry; lia).
  assert (StateDB.Exist sender (applyAccepted tx sender s) = true) as ->.
  { unfold StateDB.Exist, applyAccepted, StateDB.SetNonce.
    apply bool_decide_eq_true. rewrite lookup_insert_eq. by eexists. }
  replace (BackendGasLimit (backend (app w)) <? Gas tx) with false
    by (symmetry; lia).
  rewrite GetNonce_applyAccepted, decide_True by done.
  pose proof (uint64_succ_ne (Nonce tx)) as Hne.
  replace (uint64 (Nonce tx + 1) =? Nonce tx) with false by (symmetry; lia).
  reflexivity.
Qed.

(** X3: [CheckTx] writes to the mempool state object and to nothing else:
    the fields of the application, the backend among them, and every other
    object of the heap, the committed state among them, are as before. *)
Theorem CheckTx_writes_mempool_state_only (txBytes : list Byte.byte) w resp w' :
  CheckTx txBytes w = Ret (resp, w') ->
  app w' = app w /\
  forall p, p <> checkTxState (app w) -> heap w' !! p = heap w !! p.
Proof.
  intros Hrun.
  apply CheckTx_inv in Hrun as [[-> _]|(s & tx & sender & _ & _ & _ & ->)];
    [done|].
  split; [done|]. intros p Hp. cbn [heap]. by apply lookup_insert_ne.
Qed.

(** X4: within the mempool state, [CheckTx] changes no account but the
    sender and the recipient of the transaction. *)
Theorem CheckTx_touches_sender_and_recipient (txBytes : list Byte.byte)
  w s resp w' (addr : Address) :
  Sm w = Some s ->
  CheckTx txBytes w = Ret (resp, w') ->
  senderOf txBytes <> Some addr ->
  (forall tx, decodeTx txBytes = inl tx -> To tx <> Some addr) ->
  exists s', Sm w' = Some s' /\ s' !! addr = s !! addr.
Proof.
  intros Hs Hrun Hsender Hto.
  apply CheckTx_inv in Hrun
    as [[-> _]|(s0 & tx & sender & Hs0 & Hadm & _ & ->)].
  { by exists s. }
  rewrite Hs in Hs0. injection Hs0 as <-.
  apply admission_Accepted in Hadm as (Hdec & _ & Hsnd & _).
  exists (applyAccepted tx sender s).
  split; [unfold Sm; cbn [heap app]; apply lookup_insert_eq|].
  assert (sender <> addr) as Hne.
  { intros ->. apply Hsender. unfold senderOf. by rewrite Hdec, Hsnd. }
  specialize (Hto tx Hdec).
  unfold applyAccepted. rewrite lookup_SetNonce_ne by done.
  destruct (To tx) as [to|].
  - rewrite lookup_AddBalance_ne by congruence. by apply lookup_SubBalance_ne.
  - by apply lookup_SubBalance_ne.
Qed.

(** X5: a transaction that [CheckTx] accepts carries at least 21000 gas
    and 4 more for each byte of payload; a contract creation (no recipient)
    carries at least 53000, the homestead price. *)
Theorem CheckTx_accepted_gas_floor (txBytes : list Byte.byte) w resp w' :
  CheckTx txBytes w = Ret (resp, w') ->
  ResponseCheckTx.Code resp = CodeTypeOK ->
  exists tx,
    decodeTx txBytes = inl tx /\
    TxGas + TxDataZeroGas * Z.of_nat (List.length (Data tx)) <= Gas tx /\
    (To tx = None ->
     TxGasContractCreation + TxDataZeroGas * Z.of_nat (List.length (Data tx))
     <= Gas tx).
Proof.
  intros Hrun Hok.
  apply CheckTx_inv in Hrun
    as [[_ [r ->]]|(s & tx & sender & Hs & Hadm & _ & _)].
  { by apply reply_not_ok in Hok. }
  apply admission_Accepted in Hadm
    as (Hdec & _ & _ & _ & _ & _ & _ & _ & intrGas & Hintr & Hig).
  apply IntrinsicGas_floor in Hintr.
  exists tx. split; [done|]. split.
  - destruct (bool_decide (To tx = None));
      unfold TxGasContractCreation, TxGas in *; lia.
  - intros Hto. rewrite bool_decide_eq_true_2 in Hintr by done. lia.
Qed.


(** X13: once [CheckTx] has accepted a transaction, a second transaction
    of the same sender that carries the same nonce is rejected, whatever
    else it holds, and the mempool state stays as it was. *)
Theorem CheckTx_stale_nonce_rejected (first second : list Byte.byte) w resp w' :
  CheckTx first w = Ret (resp, w') ->
  ResponseCheckTx.Code resp = CodeTypeOK ->
  senderOf second = senderOf first ->
  (forall tx1 tx2,
     decodeTx first = inl tx1 -> decodeTx second = inl tx2 ->
     Nonce tx2 = Nonce tx1) ->
  exists r, CheckTx second w' = Ret (reply r, w').
Proof.
  intros Hrun Hok Hsame Hnonce.
  apply CheckTx_inv in Hrun
    as [[_ [r ->]]|(s & tx & sender & Hs & Hadm & _ & ->)].
  { by apply reply_not_ok in Hok. }
  apply admission_Accepted in Hadm as (Hdec & _ & Hsender & _).
  assert (senderOf first = Some sender) as Hfirst
    by (unfold senderOf; by rewrite Hdec, Hsender).
  rewrite Hfirst in Hsame. unfold senderOf in Hsame.
  destruct (decodeTx second) as [tx2|err] eqn:Hdec2; [|discriminate].
  destruct (Sender (signerOf tx2) tx2) as [sender2|err] eqn:Hsender2;
    [|discriminate].
  injection Hsame as ->.
  specialize (Hnonce tx tx2 Hdec eq_refl).
  set (w1 := {| heap := _; app := app w |}).
  assert (Sm w1 = Some (applyAccepted tx sender s)) as Hs1
    by (unfold Sm; cbn [heap app]; apply lookup_insert_eq).
  rewrite (CheckTx_outcome _ _ _ Hs1).
  unfold admission, checkDecoded, checkSigned, statefulChecks.
  rewrite Hdec2, Hsender2.
  destruct (maxTransactionSize <? Size tx2); [by eexists|].
  cbn [first_failure].
  destruct (Value tx2 <? 0); [by eexists|].
  destruct (negb (StateDB.Exist sender _)); [by eexists|].
  destruct (_ <? Gas tx2); [by eexists|].
  rewrite GetNonce_applyAccepted, decide_True by done.
  pose proof (uint64_succ_ne (Nonce tx)) as Hne.
  replace (uint64 (Nonce tx + 1) =? Nonce tx2) with false by (symmetry; lia).
  by eexists.
Qed.

(** *** What admission takes out of the mempool state *)

Lemma totalBalance_insert a so s :
  totalBalance (<[a := so]> s) =
  totalBalance s - StateDB.GetBalance a s + so_balance so.
Proof.
  unfold totalBalance, StateDB.GetBalance.
  destruct (s !! a) as [so0|] eqn:Ha.
  - rewrite <- (insert_delete_id s a so0 Ha) at 2.
    rewrite <- insert_delete_eq.
    rewrite !map_fold_insert_L
      by first [apply lookup_delete_eq | intros; lia].
    lia.
  - rewrite map_fold_insert_L; [lia | intros; lia | done].
Qed.

Lemma totalBalance_SubBalance a amount s :
  totalBalance (StateDB.SubBalance a amount s) = totalBalance s - amount.
Proof.
  unfold StateDB.SubBalance.
  destruct (amount =? 0) eqn:Hz; rewrite totalBalance_insert;
    rewrite ?so_balance_GetBalance; cbn [so_balance];
    rewrite ?so_balance_GetBalance; lia.
Qed.

Lemma totalBalance_AddBalance a amount s :
  totalBalance (StateDB.AddBalance a amount s) = totalBalance s + amount.
Proof.
  unfold StateDB.AddBalance.
  destruct (amount =? 0) eqn:Hz; rewrite totalBalance_insert;
    rewrite ?so_balance_GetBalance; cbn [so_balance];
    rewrite ?so_balance_GetBalance; lia.
Qed.

Lemma totalBalance_SetNonce a nonce s :
  totalBalance (StateDB.SetNonce a nonce s) = totalBalance s.
Proof.
  unfold StateDB.SetNonce. rewrite totalBalance_insert. cbn [so_balance].
  rewrite so_balance_GetBalance. lia.
Qed.

(** X14: an accepted transaction with a recipient lowers the sum of the
    balances of the mempool state by the fee [gasPrice * gasLimit] alone:
    the value only moves, also when the sender pays itself.  A contract
    creation lowers the sum by the whole cost, since the value is credited
    to no account.  A rejected transaction leaves the sum as it is. *)
Theorem CheckTx_total_balance (txBytes : list Byte.byte) w s resp w' :
  Sm w = Some s ->
  CheckTx txBytes w = Ret (resp, w') ->
  exists s',
    Sm w' = Some s' /\
    (ResponseCheckTx.Code resp <> CodeTypeOK -> totalBalance s' = totalBalance s) /\
    (ResponseCheckTx.Code resp = CodeTypeOK ->
     exists tx,
       decodeTx txBytes = inl tx /\
       totalBalance s' =
       match To tx with
       | Some _ => totalBalance s - GasPrice tx * Gas tx
       | None => totalBalance s - Cost tx
       end).
Proof.
  intros Hs Hrun.
  apply CheckTx_inv in Hrun
    as [[-> [r ->]]|(s0 & tx & sender & Hs0 & Hadm & -> & ->)].
  - exists s. split; [done|]. split; [done|].
    intros Hok. by apply reply_not_ok in Hok.
  - rewrite Hs in Hs0. injection Hs0 as <-.
    apply admission_Accepted in Hadm as (Hdec & _).
    exists (applyAccepted tx sender s).
    split; [unfold Sm; cbn [heap app]; apply lookup_insert_eq|].
    split; [by intros Hno|].
    intros _. exists tx. split; [done|].
    unfold applyAccepted. rewrite totalBalance_SetNonce.
    destruct (To tx) as [to|].
    + rewrite totalBalance_AddBalance, totalBalance_SubBalance.
      unfold Cost, GasPrice, Gas, Value. lia.
    + by rewrite totalBalance_SubBalance.
Qed.

(** *** Batches of [CheckTx] *)

(** X9: over a batch of [CheckTx] calls, the nonce the mempool state holds
    for an account advances by one, in [uint64], for each transaction of
    that account that was answered OK, and by nothing else; there is one
    response for each transaction. *)
Theorem CheckTxs_nonce_count (txs : list (list Byte.byte)) (addr : Address) :
  forall w s resps w',
    Sm w = Some s ->
    0 <= StateDB.GetNonce addr s < 2 ^ 64 ->
    CheckTxs txs w = Ret (resps, w') ->
    List.length resps = List.length txs /\
    exists s',
      Sm w' = Some s' /\
      StateDB.GetNonce addr s' =
      uint64 (StateDB.GetNonce addr s + acceptedFrom addr txs resps).
Proof.
  induction txs as [|txBytes txs IH]; intros w s resps w' Hs Hrange Hrun.
  - injection Hrun as <- <-. split; [done|]. exists s. split; [done|].
    cbn [acceptedFrom]. unfold uint64. rewrite Z.add_0_r.
    symmetry. by apply Z.mod_small.
  - cbn [CheckTxs] in Hrun. rewrite bind_run in Hrun.
    destruct (CheckTx txBytes w) as [[resp w1]|msg] eqn:Hfirst; [|discriminate].
    rewrite bind_run in Hrun.
    destruct (CheckTxs txs w1) as [[resps1 w2]|msg] eqn:Hrest; [|discriminate].
    injection Hrun as <- <-.
    apply CheckTx_inv in Hfirst
      as [[-> [r ->]]|(s0 & tx & sender & Hs0 & Hadm & -> & ->)].
    + destruct (IH _ _ _ _ Hs Hrange Hrest) as (Hlen & s' & Hs' & Hnonce).
      split; [cbn; lia|]. exists s'. split; [done|].
      rewrite Hnonce. cbn [acceptedFrom].
      pose proof (reply_not_ok r) as Hcode.
      replace (ResponseCheckTx.Code (reply r) =? CodeTypeOK) with false
        by (symmetry; lia).
      rewrite andb_false_r. f_equal; lia.
    + rewrite Hs in Hs0. injection Hs0 as <-.
      apply admission_Accepted in Hadm
        as (Hdec & _ & Hsender & _ & _ & _ & Hn & _).
      set (w1 := {| heap := _; app := app w |}) in *.
      assert (Sm w1 = Some (applyAccepted tx sender s)) as Hs1
        by (unfold Sm; cbn [heap app]; apply lookup_insert_eq).
      assert (senderOf txBytes = Some sender) as Hof
        by (unfold senderOf; by rewrite Hdec, Hsender).
      assert (0 <= StateDB.GetNonce addr (applyAccepted tx sender s) < 2 ^ 64)
        as Hrange1.
      { rewrite GetNonce_applyAccepted. destruct (decide (sender = addr)); [|done].
        apply Z.mod_pos_bound. lia. }
      destruct (IH _ _ _ _ Hs1 Hrange1 Hrest) as (Hlen & s' & Hs' & Hnonce).
      split; [cbn; lia|]. exists s'. split; [done|].
      rewrite Hnonce, GetNonce_applyAccepted. cbn [acceptedFrom].
      rewrite Hof. change (ResponseCheckTx.Code okResponse =? CodeTypeOK) with true.
      rewrite andb_true_r.
      destruct (decide (sender = addr)) as [->|Hne].
      * rewrite bool_decide_eq_true_2 by done. rewrite <- Hn.
        unfold uint64. rewrite Zplus_mod_idemp_l. f_equal; lia.
      * rewrite bool_decide_eq_false_2 by congruence. f_equal; lia.
Qed.

(** *** [DeliverTx], [BeginBlock], [Query] *)

Variable Receiver : @EthermintApplication B S -> Address.
Variable CollectTx :
  Transaction -> @EthermintApplication B S -> @EthermintApplication B S.

(** A call of the backend returns, with the backend in its new state. *)
Lemma callBackend_run {A : Type} (f : B -> A * B) w :
  callBackend f w =
  Ret (fst (f (backend (app w))),
       {| heap := heap w; app := set_backend (snd (f (backend (app w)))) (app w) |}).
Proof. unfold callBackend. by destruct (f _). Qed.

(** X7: [DeliverTx] never touches the heap, so a delivered transaction
    does not advance the mempool state; and when it answers OK, the
    response is bare: the data and the log of the backend's response are
    not passed on. *)
Theorem DeliverTx_leaves_mempool_state (txBytes : list Byte.byte) w resp w' :
  DeliverTx CollectTx txBytes w = Ret (resp, w') ->
  heap w' = heap w /\
  ((forall tx a, checkTxState (CollectTx tx a) = checkTxState a) ->
   Sm w' = Sm w) /\
  (ResponseDeliverTx.Code resp = CodeTypeOK ->
   ResponseDeliverTx.Data resp = [] /\ ResponseDeliverTx.Log resp = ""%string).
Proof.
  unfold DeliverTx.
  destruct (decodeTx txBytes) as [tx|err].
  - rewrite bind_run. unfold callBackend.
    destruct (BackendDeliverTx tx (backend (app w))) as [res b].
    destruct (ResponseDeliverTx.IsErr res) eqn:Herr.
    + intros [= <- <-]. split; [done|]. split; [done|].
      unfold ResponseDeliverTx.IsErr in Herr.
      apply negb_true_iff in Herr. lia.
    + intros [= <- <-]. split; [done|]. split; [|done].
      intros Hcollect. unfold Sm. cbn [heap app]. by rewrite Hcollect.
  - intros [= <- <-]. split; [done|]. split; [done|]. discriminate.
Qed.

(** X8: [BeginBlock] stores the request before it initialises the
    backend.  It panics with the error of [InitEthState] when there is one;
    otherwise it returns, the request is stored, the header of the request
    has reached the backend, and the heap and the mempool state pointer are
    as before. *)
Theorem BeginBlock_stores_request (beginBlock : RequestBeginBlock) w :
  let stored := set_requestBeginBlock (Some beginBlock) (app w) in
  match InitEthState (Receiver stored) (backend (app w)) with
  | (Some e, _) => BeginBlock Receiver beginBlock w = Panic e
  | (None, b) =>
    exists w',
      BeginBlock Receiver beginBlock w = Ret (tt, w') /\
      requestBeginBlock (app w') = Some beginBlock /\
      backend (app w') = UpdateHeaderWithTimeInfo (RequestHeader beginBlock) b /\
      heap w' = heap w /\ checkTxState (app w') = checkTxState (app w)
  end.
Proof.
  intros stored. subst stored. unfold BeginBlock.
  repeat (rewrite bind_run; cbn [modifyApp getApp app heap]).
  rewrite callBackend_run. cbn [app heap].
  change (backend (set_requestBeginBlock (Some beginBlock) (app w)))
    with (backend (app w)).
  destruct (InitEthState _ (backend (app w))) as [[e|] b]; cbn [fst snd];
    [reflexivity|].
  rewrite callBackend_run. eexists. split; [reflexivity|]. by cbn.
Qed.

(** X12: [Query] always returns, and leaves the heap and every field of
    the application but the backend alone.  It answers OK exactly when the
    request parses, the call succeeds and the result encodes, and the value
    is then the encoded result; a request that does not parse is answered
    with the parse error and never reaches the backend. *)
Theorem Query_reports (data : list Byte.byte) w :
  exists resp w',
    Query data w = Ret (resp, w') /\
    heap w' = heap w /\ checkTxState (app w') = checkTxState (app w) /\
    requestBeginBlock (app w') = requestBeginBlock (app w) /\
    (forall err, UnmarshalRequest data = inr err ->
       w' = w /\ ResponseQuery.Log resp = err /\
       ResponseQuery.Code resp = numeric Internal) /\
    (ResponseQuery.Code resp = CodeTypeOK <->
     exists method params result b bytes,
       UnmarshalRequest data = inl (method, params) /\
       RpcCall method params (backend (app w)) = (inl result, b) /\
       Marshal result = inl bytes /\
       ResponseQuery.Value resp = bytes).
Proof.
  unfold Query.
  destruct (UnmarshalRequest data) as [[method params]|err] eqn:Hreq.
  - rewrite bind_run. unfold callBackend.
    destruct (RpcCall method params (backend (app w))) as [[result|err] b]
      eqn:Hcall.
    + destruct (Marshal result) as [bytes|err] eqn:Hm.
      * eexists _, _. split; [reflexivity|]. cbn.
        do 3 (split; [done|]). split; [discriminate|].
        split; [|done]. intros _. by exists method, params, result, b, bytes.
      * eexists _, _. split; [reflexivity|]. cbn.
        do 3 (split; [done|]). split; [discriminate|].
        split; [discriminate|].
        intros (m & ps & r & b' & bs & [= <- <-] & Hc & Hm' & _).
        rewrite Hcall in Hc. injection Hc as <- <-. congruence.
    + eexists _, _. split; [reflexivity|]. cbn.
      do 3 (split; [done|]). split; [discriminate|].
      split; [discriminate|].
      intros (m & ps & r & b' & bs & [= <- <-] & Hc & _).
      rewrite Hcall in Hc. discriminate.
  - eexists _, _. split; [reflexivity|]. cbn.
    do 3 (split; [done|]). split; [by intros ? [= <-]|].
    split; [discriminate|]. by intros (m & ps & r & b' & bs & [=] & _).
Qed.

(** *** Construction and runs *)

Variable CreateValidators : B -> option string.
Variable NewLDBDatabase : option string.

(** X10: when [NewEthermintApplication] returns an application, the chain
    state was read, the validators were created, the database was opened
    and the backend was initialised, all without error; the mempool state
    of the application is a newly allocated copy of the chain state it
    read; no request is stored; and [getCurrentState] is the function the
    chain state was read with. *)
Theorem NewEthermintApplication_wellformed (b0 : B)
  (state :
     B -> gmap positive (gmap N stateObject) ->
     gmap positive (gmap N stateObject) * (positive + string))
  (strategy0 : S) (h h' : gmap positive (gmap N stateObject))
  (a : @EthermintApplication B S) :
  NewEthermintApplication CreateValidators NewLDBDatabase b0 state strategy0 h
  = Ret (inl a, h') ->
  exists h1 p s b,
    state b0 h = (h1, inl p) /\ h1 !! p = Some s /\
    CreateValidators b0 = None /\ NewLDBDatabase = None /\
    InitEthState 0%N b0 = (None, b) /\
    backend a = b /\ getCurrentState a = state /\ strategy a = strategy0 /\
    requestBeginBlock a = None /\
    Sm {| heap := h'; app := a |} = Some s /\
    h' !! p = Some s /\
    (checkTxState a ∉ dom h1) /\ checkTxState a <> p.
Proof.
  unfold NewEthermintApplication.
  destruct (state b0 h) as [h1 [p|err]] eqn:Hstate; [|discriminate].
  destruct (CreateValidators b0) as [err|] eqn:Hv; [discriminate|].
  destruct NewLDBDatabase as [err|] eqn:Hdb; [discriminate|].
  destruct (h1 !! p) as [s|] eqn:Hp; [|discriminate].
  cbv zeta.
  destruct (InitEthState 0%N b0) as [[e|] b] eqn:Hinit; [discriminate|].
  intros [= <- <-].
  assert (fresh (dom h1) ∉ dom h1) as Hfresh by apply is_fresh.
  assert (fresh (dom h1) <> p) as Hne.
  { intros Heq. apply Hfresh. rewrite Heq. apply elem_of_dom. by eexists. }
  exists h1, p, s, b. cbn [backend set_backend getCurrentState strategy
                          requestBeginBlock checkTxState].
  do 9 (split; [done|]).
  split; [unfold Sm; cbn; apply lookup_insert_eq|].
  split; [by rewrite lookup_insert_ne|]. done.
Qed.

(** What each method does to the mempool state pointer. *)
Lemma Info_run w : exists resp, Info w = Ret (resp, w).
Proof.
  unfold Info. rewrite bind_run. cbn [getApp].
  destruct (_ =? bigZero); by eexists.
Qed.

Lemma DeliverTx_mempool_pointer (txBytes : list Byte.byte) w resp w' :
  (forall tx a, checkTxState (CollectTx tx a) = checkTxState a) ->
  DeliverTx CollectTx txBytes w = Ret (resp, w') ->
  Sm w' = Sm w.
Proof.
  intros Hcollect. unfold DeliverTx.
  destruct (decodeTx txBytes) as [tx|err]; [|by intros [= <- <-]].
  rewrite bind_run. unfold callBackend.
  destruct (BackendDeliverTx tx (backend (app w))) as [res b].
  destruct (ResponseDeliverTx.IsErr res); intros [= <- <-]; [done|].
  unfold Sm. cbn [heap app]. by rewrite Hcollect.
Qed.

Lemma BeginBlock_mempool_pointer (beginBlock : RequestBeginBlock) w w' :
  BeginBlock Receiver beginBlock w = Ret (tt, w') -> Sm w' = Sm w.
Proof.
  unfold BeginBlock.
  repeat (rewrite bind_run; cbn [modifyApp getApp app heap]).
  rewrite callBackend_run. cbn [app heap].
  destruct (InitEthState _ _) as [[e|] b]; cbn [fst snd]; [discriminate|].
  rewrite callBackend_run. by intros [= <-].
Qed.

Lemma Query_mempool_pointer (data : list Byte.byte) w :
  exists resp w', Query data w = Ret (resp, w') /\ Sm w' = Sm w.
Proof.
  unfold Query.
  destruct (UnmarshalRequest data) as [[method params]|err];
    [|by eexists _, _].
  rewrite bind_run. unfold callBackend.
  destruct (RpcCall method params (backend (app w))) as [[result|err] b];
    [destruct (Marshal result)|]; by eexists _, _.
Qed.

(** X11: the mempool state pointer stays valid over any run of requests:
    if it points to a state before a run of [Info], [CheckTx], [DeliverTx],
    [BeginBlock], [Commit] and [Query] calls that does not panic, it points
    to a state after the run.  [CollectTx] is taken not to move the
    pointer. *)
Theorem serveAll_keeps_mempool_state (cs : list Call) :
  (forall tx a, checkTxState (CollectTx tx a) = checkTxState a) ->
  forall w w',
    is_Some (Sm w) ->
    serveAll Receiver CollectTx cs w = Ret (tt, w') ->
    is_Some (Sm w').
Proof.
  intros Hcollect.
  induction cs as [|c cs IH]; intros w w' Hw Hrun.
  - by injection Hrun as <-.
  - cbn [serveAll] in Hrun. rewrite bind_run in Hrun.
    destruct (serve Receiver CollectTx c w) as [[[] w1]|msg] eqn:Hstep;
      [|discriminate].
    apply (IH w1 w'); [|done].
    destruct c as [|txBytes|txBytes|beginBlock| |data];
      cbn [serve] in Hstep; try rewrite bind_run in Hstep.
    + pose proof (Info_run w) as Hinfo.
      destruct Hinfo as [resp Hinfo]. rewrite Hinfo in Hstep.
      by injection Hstep as <-.
    + destruct (CheckTx txBytes w) as [[resp w2]|msg] eqn:Hcheck;
        [|discriminate].
      injection Hstep as <-.
      apply CheckTx_inv in Hcheck
        as [[-> _]|(s & tx & sender & _ & _ & _ & ->)]; [done|].
      unfold Sm. cbn [heap app]. rewrite lookup_insert_eq. by eexists.
    + destruct (DeliverTx CollectTx txBytes w) as [[resp w2]|msg] eqn:Hdeliver;
        [|discriminate].
      injection Hstep as <-.
      apply DeliverTx_mempool_pointer in Hdeliver; [|done].
      by rewrite Hdeliver.
    + apply BeginBlock_mempool_pointer in Hstep. by rewrite Hstep.
    + destruct (Commit Receiver w) as [[resp w2]|msg] eqn:Hcommit;
        [|discriminate].
      injection Hstep as <-.
      destruct (BackendCommit (Receiver (app w)) (backend (app w)))
        as [[blockHash err] b] eqn:Hbc.
      destruct (getCurrentState (app w) b (heap w)) as [h st] eqn:Hst.
      rewrite (Commit_run _ _ _ _ _ _ _ Hbc Hst) in Hcommit.
      destruct err; [discriminate|]. destruct st as [p|]; [|discriminate].
      destruct (h !! p) as [sc|]; [|discriminate].
      injection Hcommit as _ <-.
      unfold Sm. cbn. rewrite lookup_insert_eq. by eexists.
    + destruct (Query_mempool_pointer data w) as (resp & w2 & Hq & Hsm).
      rewrite Hq in Hstep. injection Hstep as <-. by rewrite Hsm.
Qed.

End MoreProperties.

(** ** Further properties, run on the test double *)

Section MoreScenarios.

Import Fixture.
Import FixtureRpc.
Existing Instance codec.
Existing Instance memOps.
Existing Instance rpc.

Lemma scene_accepts_transfer :
  exists w', CheckTx [Byte.x05; Byte.x0b] (scene 30000) = Ret (okResponse, w').
Proof. eexists; vm_compute; reflexivity. Qed.

Lemma CheckTx_accepts_iff_witness :
  exists resp w',
    CheckTx [Byte.x05; Byte.x0b] (scene 21100) = Ret (resp, w') /\
    ResponseCheckTx.Code resp = CodeTypeOK.
Proof.
  apply (CheckTx_accepts_iff [Byte.x05; Byte.x0b] (scene 21100) (funded 21100));
    [vm_compute; reflexivity|].
  exists (transfer 5 bob), alice, 21000.
  split; [reflexivity|]. split; [vm_compute; discriminate|].
  split; [reflexivity|]. split; [vm_compute; discriminate|].
  split; [eexists; vm_compute; reflexivity|].
  split; [vm_compute; discriminate|]. split; [vm_compute; reflexivity|].
  split; [vm_compute; discriminate|]. split; [reflexivity|].
  vm_compute; discriminate.
Defined.

Lemma CheckTx_replay_rejected_witness :
  exists w',
    CheckTx [Byte.x05; Byte.x0b] (scene 30000) = Ret (okResponse, w') /\
    CheckTx [Byte.x05; Byte.x0b] w' = Ret (reply (BadNonce 6 5), w').
Proof.
  destruct scene_accepts_transfer as [w' Hrun].
  exists w'. split; [exact Hrun|].
  destruct (CheckTx_replay_rejected _ _ _ _ Hrun eq_refl) as (tx & Hdec & Hagain).
  cbn [decodeTx codec decode] in Hdec. injection Hdec as <-.
  exact Hagain.
Defined.

Lemma CheckTx_stale_nonce_rejected_witness :
  exists w' r,
    CheckTx [Byte.x05; Byte.x0b] (scene 30000) = Ret (okResponse, w') /\
    CheckTx [Byte.x05; Byte.x0a] w' = Ret (reply r, w').
Proof.
  destruct scene_accepts_transfer as [w' Hrun].
  destruct (CheckTx_stale_nonce_rejected [Byte.x05; Byte.x0b]
              [Byte.x05; Byte.x0a] _ _ _ Hrun eq_refl) as [r Hsecond].
  - reflexivity.
  - intros tx1 tx2 Hd1 Hd2. cbn [decodeTx codec decode] in Hd1, Hd2.
    injection Hd1 as <-. injection Hd2 as <-. reflexivity.
  - by exists w', r.
Defined.

Lemma CheckTx_writes_mempool_state_only_witness :
  exists w',
    CheckTx [Byte.x05; Byte.x0b] (scene 30000) = Ret (okResponse, w') /\
    app w' = app (scene 30000) /\
    heap w' !! 2%positive = heap (scene 30000) !! 2%positive.
Proof.
  destruct scene_accepts_transfer as [w' Hrun].
  exists w'. split; [exact Hrun|].
  destruct (CheckTx_writes_mempool_state_only _ _ _ _ Hrun) as [Happ Hframe].
  split; [exact Happ|]. apply Hframe. discriminate.
Defined.

Lemma CheckTx_touches_sender_and_recipient_witness :
  exists w' s',
    CheckTx [Byte.x05; Byte.x0b] (scene 30000) = Ret (okResponse, w') /\
    Sm w' = Some s' /\ s' !! 12%N = funded 30000 !! 12%N.
Proof.
  destruct scene_accepts_transfer as [w' Hrun].
  destruct (CheckTx_touches_sender_and_recipient [Byte.x05; Byte.x0b]
              (scene 30000) (funded 30000) okResponse w' 12%N)
    as (s' & Hs' & Hsame).
  - vm_compute; reflexivity.
  - exact Hrun.
  - vm_compute; discriminate.
  - intros tx Hdec. cbn [decodeTx codec decode] in Hdec.
    injection Hdec as <-. vm_compute; discriminate.
  - by exists w', s'.
Defined.

Lemma CheckTx_accepted_gas_floor_witness :
  exists w' tx,
    CheckTx [Byte.x05; Byte.x0b] (scene 30000) = Ret (okResponse, w') /\
    decodeTx [Byte.x05; Byte.x0b] = inl tx /\
    TxGas + TxDataZeroGas * Z.of_nat (List.length (Data tx)) <= Gas tx.
Proof.
  destruct scene_accepts_transfer as [w' Hrun].
  destruct (CheckTx_accepted_gas_floor _ _ _ _ Hrun eq_refl)
    as (tx & Hdec & Hfloor & _).
  by exists w', tx.
Defined.

Lemma CheckTx_total_balance_witness :
  exists w' s',
    CheckTx [Byte.x05; Byte.x0b] (scene 30000) = Ret (okResponse, w') /\
    Sm w' = Some s' /\ totalBalance s' = 9000.
Proof.
  destruct scene_accepts_transfer as [w' Hrun].
  destruct (CheckTx_total_balance [Byte.x05; Byte.x0b] (scene 30000)
              (funded 30000) okResponse w') as (s' & Hs' & _ & Hok);
    [vm_compute; reflexivity | exact Hrun |].
  destruct (Hok eq_refl) as (tx & Hdec & Htotal).
  cbn [decodeTx codec decode] in Hdec. injection Hdec as <-.
  exists w', s'. split; [exact Hrun|]. split; [exact Hs'|].
  rewrite Htotal. vm_compute; reflexivity.
Defined.


Lemma CheckTxs_nonce_count_witness :
  exists resps w' s',
    CheckTxs batch (scene 100000) = Ret (resps, w') /\
    List.length resps = List.length batch /\
    Sm w' = Some s' /\
    StateDB.GetNonce alice s' = 7.
Proof.
  assert (exists w',
            CheckTxs batch (scene 100000) =
            Ret ([okResponse; reply (BadNonce 6 5); okResponse], w'))
    as (w' & Hrun) by (eexists; vm_compute; reflexivity).
  destruct (CheckTxs_nonce_count batch alice (scene 100000) (funded 100000)
              [okResponse; reply (BadNonce 6 5); okResponse] w')
    as (Hlen & s' & Hs' & Hnonce);
    [vm_compute; reflexivity
    | vm_compute; split; [discriminate | reflexivity]
    | exact Hrun |].
  eexists _, w', s'. split; [exact Hrun|]. split; [exact Hlen|].
  split; [exact Hs'|]. rewrite Hnonce. vm_compute; reflexivity.
Defined.

Lemma DeliverTx_leaves_mempool_state_witness :
  exists resp w',
    DeliverTx collect [Byte.x05; Byte.x0b] (scene 1000) = Ret (resp, w') /\
    heap w' = heap (scene 1000) /\ Sm w' = Sm (scene 1000).
Proof.
  assert (exists resp w',
            DeliverTx collect [Byte.x05; Byte.x0b] (scene 1000) = Ret (resp, w'))
    as (resp & w' & Hrun) by (eexists _, _; vm_compute; reflexivity).
  destruct (DeliverTx_leaves_mempool_state collect _ _ _ _ Hrun)
    as (Hheap & Hsm & _).
  exists resp, w'. split; [exact Hrun|]. split; [exact Hheap|].
  apply Hsm. reflexivity.
Defined.

Lemma NewEthermintApplication_wellformed_witness :
  exists a h',
    NewEthermintApplication validatorsOk None (mem 0 1000 None) currentState tt ∅
    = Ret (inl a, h') /\
    Sm {| heap := h'; app := a |} = Some (funded 1000) /\
    requestBeginBlock a = None.
Proof.
  assert (exists a h',
            NewEthermintApplication validatorsOk None (mem 0 1000 None)
              currentState tt ∅ = Ret (inl a, h'))
    as (a & h' & Hrun) by (eexists _, _; vm_compute; reflexivity).
  destruct (NewEthermintApplication_wellformed _ _ _ _ _ _ _ _ Hrun)
    as (h1 & p & s & b & Hstate & Hp & _ & _ & _ & _ & _ & _ & Hreq & Hsm & _).
  exists a, h'. split; [exact Hrun|].
  unfold currentState in Hstate. injection Hstate as <- <-.
  rewrite lookup_insert_eq in Hp. injection Hp as <-.
  split; [exact Hsm | exact Hreq].
Defined.

Lemma serveAll_keeps_mempool_state_witness :
  exists w',
    serveAll receiver collect block (scene 30000) = Ret (tt, w') /\
    is_Some (Sm w').
Proof.
  assert (exists w', serveAll receiver collect block (scene 30000) = Ret (tt, w'))
    as [w' Hrun] by (eexists; vm_compute; reflexivity).
  exists w'. split; [exact Hrun|].
  apply (serveAll_keeps_mempool_state receiver collect block
           (fun _ _ => eq_refl) (scene 30000) w');
    [eexists; vm_compute; reflexivity | exact Hrun].
Defined.

End MoreScenarios.
